(** * csvforwkt.crs : coordinate reference systems of celestial bodies

    A shallow embedding of [src/csvforwkt/crs.py]: the longitude direction
    rule, the IAU code assignment, the WKT templates with Python's
    [string.Template] substitution, the conversion renderer and the
    projected CRS builder with its catalog of projections.

    Python integers are unbounded and are modelled by [Z]; Python strings
    are modelled by [string], the bytes of their UTF-8 form; a raised
    exception is the [Raise] branch of [result]. *)

From Stdlib Require Import ZArith String Ascii List Bool Lia DecimalString.
Import ListNotations.

Local Open Scope string_scope.

(** ** The Python layer *)

Module Py.

(** The exceptions the module can raise. *)
Inductive exn : Type :=
| AssertionError
| ValueError
| KeyError
| IndexError
| TypeError.

Inductive result (A : Type) : Type :=
| Ok (a : A)
| Raise (e : exn).

Arguments Ok {A} a.
Arguments Raise {A} e.

Definition bind {A B : Type} (r : result A) (k : A -> result B) : result B :=
  match r with
  | Ok a => k a
  | Raise e => Raise e
  end.

Definition is_ok {A : Type} (r : result A) : bool :=
  match r with
  | Ok _ => true
  | Raise _ => false
  end.

(** [xs] evaluated left to right, the first exception wins. *)
Fixpoint mapM {A B : Type} (f : A -> result B) (xs : list A) : result (list B) :=
  match xs with
  | [] => Ok []
  | x :: xs' =>
      bind (f x) (fun y => bind (mapM f xs') (fun ys => Ok (y :: ys)))
  end.

(** A Python value as it occurs in the tables of the module: an [int],
    a [str] or [None]. *)
Inductive value : Type :=
| VInt (z : Z)
| VStr (s : string)
| VNone.

Definition is_not_None (v : value) : bool :=
  match v with
  | VNone => false
  | _ => true
  end.

Definition is_str (v : value) : bool :=
  match v with
  | VStr _ => true
  | _ => false
  end.

(** [str(z)] for an [int]. *)
Definition str_of_int (z : Z) : string := NilZero.string_of_int (Z.to_int z).

(** [str(v)]. *)
Definition str (v : value) : string :=
  match v with
  | VInt z => str_of_int z
  | VStr s => s
  | VNone => "None"
  end.

(** [xs[i]], raising [IndexError] out of range (for [0 <= i]). *)
Definition index {A : Type} (xs : list A) (i : nat) : result A :=
  match nth_error xs i with
  | Some x => Ok x
  | None => Raise IndexError
  end.

(** [sep.join(xs)]. *)
Fixpoint join (sep : string) (xs : list string) : string :=
  match xs with
  | [] => EmptyString
  | [x] => x
  | x :: xs' => x ++ sep ++ join sep xs'
  end.

(** *** Letters, and [str.upper] on the ASCII letters *)

Definition is_lower (c : ascii) : bool :=
  let n := nat_of_ascii c in (97 <=? n)%nat && (n <=? 122)%nat.

Definition is_upper (c : ascii) : bool :=
  let n := nat_of_ascii c in (65 <=? n)%nat && (n <=? 90)%nat.

Definition is_digit (c : ascii) : bool :=
  let n := nat_of_ascii c in (48 <=? n)%nat && (n <=? 57)%nat.

Definition upper_char (c : ascii) : ascii :=
  if is_lower c then ascii_of_nat (nat_of_ascii c - 32) else c.

(** The small ASCII letters of [s] put in capitals, every other byte
    kept. *)
Fixpoint ascii_upper (s : string) : string :=
  match s with
  | EmptyString => EmptyString
  | String c s' => String (upper_char c) (ascii_upper s')
  end.

(** A byte of an ASCII character; the bytes of the other characters, in
    UTF-8, are all from 128 on. *)
Definition is_ascii_char (c : ascii) : bool := (nat_of_ascii c <? 128)%nat.

(** A string of ASCII characters only. *)
Fixpoint is_ascii (s : string) : bool :=
  match s with
  | EmptyString => true
  | String c s' => is_ascii_char c && is_ascii s'
  end.

(** [x in xs] for a list of strings. *)
Fixpoint str_in (x : string) (xs : list string) : bool :=
  match xs with
  | [] => false
  | y :: ys => (x =? y) || str_in x ys
  end.

(** *** Text constants *)

Definition dquote : ascii := ascii_of_nat 34.
Definition backquote : ascii := ascii_of_nat 96.
Definition tilde : ascii := ascii_of_nat 126.
Definition TAB : ascii := ascii_of_nat 9.
Definition LF : ascii := ascii_of_nat 10.
Definition dollar : ascii := ascii_of_nat 36.
Definition lbrace : ascii := ascii_of_nat 123.
Definition rbrace : ascii := ascii_of_nat 125.
Definition underscore : ascii := ascii_of_nat 95.
Definition NUL : ascii := ascii_of_nat 0.

(** The literals of the module hold double quotes and tabulations.  They
    are written here with a backquote for the double quote and a tilde
    for the tabulation (neither occurs in the source literals), and
    [lit] puts the two characters back. *)
Definition lit_char (c : ascii) : ascii :=
  if Ascii.eqb c backquote then dquote
  else if Ascii.eqb c tilde then TAB
  else c.

Fixpoint lit (s : string) : string :=
  match s with
  | EmptyString => EmptyString
  | String c s' => String (lit_char c) (lit s')
  end.

(** A triple-quoted literal, one line of the source per element. *)
Definition text (ls : list string) : string :=
  join (String LF EmptyString) (map lit ls).

(** [needle in hay] for strings. *)
Fixpoint contains (needle hay : string) : bool :=
  prefix needle hay ||
  match hay with
  | EmptyString => false
  | String _ hay' => contains needle hay'
  end.

(** *** [string.Template.substitute]

    The pattern of [string.Template] is a dollar followed by one of: a
    second dollar; an identifier (a letter or an underscore, then
    letters, digits and underscores); such an identifier between
    braces; nothing.  Identifiers are read in ASCII and without
    regard to case: a doubled dollar is an escape, a dollar followed by
    an identifier (taken as long as possible) or by a braced identifier
    is a placeholder, any other dollar is invalid and raises
    [ValueError].  A placeholder missing from the keyword arguments
    raises [KeyError]; the value found is inserted through [str] and is
    not scanned again.  Matches are handled from left to right. *)

Definition id_start (c : ascii) : bool :=
  Ascii.eqb c underscore || is_lower c || is_upper c.

Definition id_char (c : ascii) : bool := id_start c || is_digit c.

Definition kwargs : Type := list (string * value).

Fixpoint kw_get (kw : kwargs) (k : string) : result value :=
  match kw with
  | [] => Raise KeyError
  | (k', v) :: kw' => if k =? k' then Ok v else kw_get kw' k
  end.

(** Where the scanner stands: in plain text, just after a dollar, inside
    a named placeholder or inside a braced one (the identifier read so
    far is kept). *)
Inductive scan : Type :=
| Plain
| Dollar
| Named (ident : string)
| Braced (ident : string).

Definition snoc (s : string) (c : ascii) : string := s ++ String c EmptyString.

Fixpoint substitute_from (kw : kwargs) (st : scan) (t : string) : result string :=
  match t with
  | EmptyString =>
      match st with
      | Plain => Ok EmptyString
      | Dollar => Raise ValueError
      | Named ident => bind (kw_get kw ident) (fun v => Ok (str v))
      | Braced _ => Raise ValueError
      end
  | String c t' =>
      match st with
      | Plain =>
          if Ascii.eqb c dollar then substitute_from kw Dollar t'
          else bind (substitute_from kw Plain t') (fun r => Ok (String c r))
      | Dollar =>
          if Ascii.eqb c dollar then
            bind (substitute_from kw Plain t') (fun r => Ok (String dollar r))
          else if id_start c then
            substitute_from kw (Named (String c EmptyString)) t'
          else if Ascii.eqb c lbrace then
            substitute_from kw (Braced EmptyString) t'
          else Raise ValueError
      | Named ident =>
          if id_char c then substitute_from kw (Named (snoc ident c)) t'
          else
            bind (kw_get kw ident) (fun v =>
            if Ascii.eqb c dollar then
              bind (substitute_from kw Dollar t') (fun r => Ok (str v ++ r))
            else
              bind (substitute_from kw Plain t') (fun r =>
              Ok (str v ++ String c r)))
      | Braced ident =>
          match ident with
          | EmptyString =>
              if id_start c then
                substitute_from kw (Braced (String c EmptyString)) t'
              else Raise ValueError
          | _ =>
              if id_char c then substitute_from kw (Braced (snoc ident c)) t'
              else if Ascii.eqb c rbrace then
                bind (kw_get kw ident) (fun v =>
                bind (substitute_from kw Plain t') (fun r => Ok (str v ++ r)))
              else Raise ValueError
          end
      end
  end.

(** [Template(t).substitute] applied to the keyword arguments [kw]. *)
Definition substitute (t : string) (kw : kwargs) : result string :=
  substitute_from kw Plain t.

End Py.

Import Py.

Notation "x <- r ;; k" := (bind r (fun x => k))
  (at level 61, r at next level, right associativity).


(** ** Enumerations *)

(** [CrsType]: the two reference frames. *)
Inductive CrsType : Type :=
| OCENTRIC
| OGRAPHIC.

Definition CrsType_value (t : CrsType) : string :=
  match t with
  | OCENTRIC => "Ocentric"
  | OGRAPHIC => "Ographic"
  end.

Definition CrsType_eqb (a b : CrsType) : bool :=
  match a, b with
  | OCENTRIC, OCENTRIC | OGRAPHIC, OGRAPHIC => true
  | _, _ => false
  end.

(** Modelled from the spec: [ReferenceShape] of [csvforwkt/body.py], which
    is not among the sources.  The spec gives the shape classes Sphere,
    Ellipse and Triaxial; [OTHER_SHAPE] stands for any other object found
    in [body.shape], the case the [else] branches of
    [_get_template_and_number] are written for. *)
Inductive ReferenceShape : Type :=
| SPHERE
| ELLIPSE
| TRIAXIAL
| OTHER_SHAPE (label : string).

Definition ReferenceShape_value (s : ReferenceShape) : string :=
  match s with
  | SPHERE => "Sphere"
  | ELLIPSE => "Ellipse"
  | TRIAXIAL => "Triaxial"
  | OTHER_SHAPE label => label
  end.

(** [BodyCrsCode]: each member carries (shape, reference, code). *)
Inductive BodyCrsCode : Type :=
| SPHERE_OCENTRIC
| ELLIPSE_OGRAPHIC
| ELLIPSE_OCENTRIC
| TRIAXIAL_OGRAPHIC
| TRIAXIAL_OCENTRIC.

Definition BodyCrsCode_value (m : BodyCrsCode) : string * string * Z :=
  match m with
  | SPHERE_OCENTRIC => ("Sphere", CrsType_value OCENTRIC, 0%Z)
  | ELLIPSE_OGRAPHIC => ("Ellipse", CrsType_value OGRAPHIC, 1%Z)
  | ELLIPSE_OCENTRIC => ("Ellipse", CrsType_value OCENTRIC, 2%Z)
  | TRIAXIAL_OGRAPHIC => ("Triaxial", CrsType_value OGRAPHIC, 3%Z)
  | TRIAXIAL_OCENTRIC => ("Triaxial", CrsType_value OCENTRIC, 4%Z)
  end.

Definition BodyCrsCode_members : list BodyCrsCode :=
  [SPHERE_OCENTRIC; ELLIPSE_OGRAPHIC; ELLIPSE_OCENTRIC;
   TRIAXIAL_OGRAPHIC; TRIAXIAL_OCENTRIC].

Definition BodyCrsCode_shape (m : BodyCrsCode) : string :=
  fst (fst (BodyCrsCode_value m)).

Definition BodyCrsCode_reference (m : BodyCrsCode) : string :=
  snd (fst (BodyCrsCode_value m)).

Definition BodyCrsCode_code (m : BodyCrsCode) : Z :=
  snd (BodyCrsCode_value m).

(** [BodyCrsCode.get_code]. *)
Definition get_code (self : BodyCrsCode) (naif_code : Z) : Z :=
  (naif_code * 100 + BodyCrsCode_code self)%Z.

(** ** Bodies and datums (external) *)

(** What the module reads of an [IBody]. *)
Record IBody : Type := {
  body_name : string;
  shape : ReferenceShape;
  warning : option string
}.

(** What the module reads of a [Datum]; [datum_wkt] is the outcome of
    [datum.wkt()]. *)
Record Datum : Type := {
  datum_name : string;
  body : IBody;
  datum_wkt : result string
}.

(** ** BodyCrs *)

Definition TEMPLATE_OGRAPHIC : string := text [
  "GEOGCRS[`$name ($version) / Ographic`,";
  "    $datum,";
  "~CS[ellipsoidal, 2],";
  "~    AXIS[`geodetic latitude (Lat)`, north,";
  "~        ORDER[1],";
  "~        ANGLEUNIT[`degree`, 0.0174532925199433]],";
  "~    AXIS[`geodetic longitude (Lon)`, $direction,";
  "~        ORDER[2],";
  "~        ANGLEUNIT[`degree`, 0.0174532925199433]],";
  "~ID[`IAU`, $number, $version],";
  "~REMARK[`$remark`]]" ].

Definition TEMPLATE_OCENTRIC : string := text [
  "GEODCRS[`$name ($version) / Ocentric`,";
  "    $datum,";
  "~CS[spherical, 2],";
  "~    AXIS[`planetocentric latitude (U)`, north,";
  "~        ORDER[1],";
  "~        ANGLEUNIT[`degree`, 0.0174532925199433]],";
  "~    AXIS[`planetocentric longitude (V)`, east,";
  "~        ORDER[2],";
  "~        ANGLEUNIT[`degree`, 0.0174532925199433]],";
  "~ID[`IAU`, $number, $version],";
  "~REMARK[`$remark`]]" ].

Definition TEMPLATE_SPHERE : string := text [
  "GEOGCRS[`$name ($version) - Sphere `,";
  "    $datum,";
  "~CS[ellipsoidal, 2],";
  "~    AXIS[`geodetic latitude (Lat)`, north,";
  "~        ORDER[1],";
  "~        ANGLEUNIT[`degree`, 0.0174532925199433]],";
  "~    AXIS[`geodetic longitude (Lon)`, east,";
  "~        ORDER[2],";
  "~        ANGLEUNIT[`degree`, 0.0174532925199433]],";
  "~ID[`IAU`, $number, $version],";
  "~REMARK[`$remark`]]" ].

(** The attributes of a [BodyCrs]; [direction] is [None] when the rule
    leaves the direction undetermined. *)
Record BodyCrs : Type := {
  datum : Datum;
  crs_type : CrsType;
  direction : option string;
  name : string;
  iau_code : Z;
  template : string
}.

(** [BodyCrs._get_template_and_number], reading [self.crs_type] and
    [self.datum].  The last [else] of the source (a [crs_type] that is
    neither member of [CrsType]) has no input in [CrsType]. *)
Definition _get_template_and_number
    (self_crs_type : CrsType) (self_datum : Datum) (naif_code : Z)
  : result (string * Z) :=
  match self_crs_type with
  | OCENTRIC =>
      match shape (body self_datum) with
      | SPHERE => Ok (TEMPLATE_SPHERE, get_code SPHERE_OCENTRIC naif_code)
      | ELLIPSE => Ok (TEMPLATE_OCENTRIC, get_code ELLIPSE_OCENTRIC naif_code)
      | TRIAXIAL => Ok (TEMPLATE_OCENTRIC, get_code TRIAXIAL_OCENTRIC naif_code)
      | OTHER_SHAPE _ => Raise ValueError
      end
  | OGRAPHIC =>
      match shape (body self_datum) with
      | ELLIPSE => Ok (TEMPLATE_OGRAPHIC, get_code ELLIPSE_OGRAPHIC naif_code)
      | TRIAXIAL => Ok (TEMPLATE_OGRAPHIC, get_code TRIAXIAL_OGRAPHIC naif_code)
      | _ => Raise ValueError
      end
  end.

Section Crs.

(** Python's [str.upper] maps each character on its own: a small ASCII
    letter to its capital, any other ASCII character to itself, a
    character outside ASCII as the Unicode tables say (the long s, for
    one, to the capital S).  [unicode_upper] is [str.upper] on a run of
    characters outside ASCII. *)
Variable unicode_upper : string -> string.

(** The capitals of the run of characters outside ASCII read so far. *)
Definition upper_run (run : string) : string :=
  match run with
  | EmptyString => EmptyString
  | _ => unicode_upper run
  end.

(** [str.upper] on [s], after the run [run] of characters outside
    ASCII. *)
Fixpoint upper_from (run s : string) : string :=
  match s with
  | EmptyString => upper_run run
  | String c s' =>
      if is_ascii_char c
      then upper_run run ++ String (upper_char c) (upper_from EmptyString s')
      else upper_from (run ++ String c EmptyString) s'
  end.

(** [s.upper()]. *)
Definition upper (s : string) : string := upper_from EmptyString s.

(** [BodyCrs._create_direction]. *)
Definition _create_direction
    (name : string) (rotation : string) (crs_type : CrsType) (number_body : Z)
  : option string :=
  if (90000 <=? number_body)%Z || str_in (upper name) ["SUN"; "EARTH"; "MOON"]
  then Some "east"
  else if CrsType_eqb crs_type OCENTRIC then Some "east"
  else if rotation =? "Direct" then Some "west"
  else if rotation =? "Retrograde" then Some "east"
  else None.

(** [BodyCrs.__init__]: the constructor raises what
    [_get_template_and_number] raises. *)
Definition BodyCrs_init
    (datum : Datum) (number_body : Z) (direction : string) (crs_type : CrsType)
  : result BodyCrs :=
  let direction' :=
    _create_direction (datum_name datum) direction crs_type number_body in
  tn <- _get_template_and_number crs_type datum number_body ;;
  Ok {| datum := datum;
        crs_type := crs_type;
        direction := direction';
        name := datum_name datum;
        iau_code := snd tn;
        template := fst tn |}.

(** [Optional[str]] as a Python value. *)
Definition value_of_option (o : option string) : value :=
  match o with
  | Some s => VStr s
  | None => VNone
  end.

(** ** Conversion *)

Definition TEMPLATE_PARAMETER : string := text [
  "PARAMETER[`$parameter_name`, $parameter_value,";
  "            $unit,";
  "            ID[`$authority`, $authority_code]]" ].

Definition TEMPLATE_CONVERSION : string := text [
  "CONVERSION[`$conversion_name`,";
  "        METHOD[`$method_name`,";
  "            ID[`$authority`, $authority_code]],";
  "        $params]," ].

(** The attributes of a [Conversion]. *)
Record Conversion : Type := {
  conversion_name : value;
  method_name : value;
  method_id : string;
  conversion_projection : list value
}.

(** [ProjectionBody.PROJECTION_DATA]: the catalog, one list per projection. *)
Definition PROJECTION_DATA : list (list value) := [
  [ VInt 10; VStr "Equirectangular, clon = 0"; VStr "Equidistant Cylindrical";
    VStr "Latitude of 1st standard parallel"; VInt 0;
    VStr "Longitude of natural origin"; VInt 0;
    VStr "False easting"; VInt 0;
    VStr "False northing"; VInt 0;
    VNone; VNone;
    VNone; VNone ];
  [ VInt 15; VStr "Equirectangular, clon = 180"; VStr "Equidistant Cylindrical";
    VStr "Latitude of 1st standard parallel"; VInt 0;
    VStr "Longitude of natural origin"; VInt 180;
    VStr "False easting"; VInt 0;
    VStr "False northing"; VInt 0;
    VNone; VNone;
    VNone; VNone ];
  [ VInt 20; VStr "Sinusoidal, clon = 0"; VStr "Sinusoidal";
    VStr "Longitude of natural origin"; VInt 0;
    VStr "False easting"; VInt 0;
    VStr "False northing"; VInt 0;
    VNone; VNone;
    VNone; VNone;
    VNone; VNone ];
  [ VInt 25; VStr "Sinusoidal, clon = 180"; VStr "Sinusoidal";
    VStr "Longitude of natural origin"; VInt 180;
    VStr "False easting"; VInt 0;
    VStr "False northing"; VInt 0;
    VNone; VNone;
    VNone; VNone;
    VNone; VNone ];
  [ VInt 30; VStr "North Polar"; VStr "Polar Stereographic (variant A)";
    VStr "Latitude of natural origin"; VInt 90;
    VStr "Longitude of natural origin"; VInt 0;
    VStr "Scale factor at natural origin"; VInt 1;
    VStr "False easting"; VInt 0;
    VStr "False northing"; VInt 0;
    VNone; VNone ];
  [ VInt 35; VStr "South Polar"; VStr "Polar Stereographic (variant A)";
    VStr "Latitude of natural origin"; VInt (-90);
    VStr "Longitude of natural origin"; VInt 0;
    VStr "Scale factor at natural origin"; VInt 1;
    VStr "False easting"; VInt 0;
    VStr "False northing"; VInt 0;
    VNone; VNone ];
  [ VInt 40; VStr "Mollweide, clon = 0"; VStr "Mollweide";
    VStr "Longitude of natural origin"; VInt 0;
    VStr "False easting"; VInt 0;
    VStr "False northing"; VInt 0;
    VNone; VNone;
    VNone; VNone;
    VNone; VNone ];
  [ VInt 45; VStr "Mollweide, clon = 180"; VStr "Mollweide";
    VStr "Longitude of natural origin"; VInt 180;
    VStr "False easting"; VInt 0;
    VStr "False northing"; VInt 0;
    VNone; VNone;
    VNone; VNone;
    VNone; VNone ];
  [ VInt 50; VStr "Robinson, clon = 0"; VStr "Robinson";
    VStr "Longitude of natural origin"; VInt 0;
    VStr "False easting"; VInt 0;
    VStr "False northing"; VInt 0;
    VNone; VNone;
    VNone; VNone;
    VNone; VNone ];
  [ VInt 55; VStr "Robinson, clon = 180"; VStr "Robinson";
    VStr "Longitude of natural origin"; VInt 180;
    VStr "False easting"; VInt 0;
    VStr "False northing"; VInt 0;
    VNone; VNone;
    VNone; VNone;
    VNone; VNone ];
  [ VInt 60; VStr "Tranverse Mercator"; VStr "Transverse Mercator";
    VStr "Latitude of natural origin"; VInt 0;
    VStr "Longitude of natural origin"; VInt 0;
    VStr "Scale factor at natural origin"; VInt 1;
    VStr "False easting"; VInt 0;
    VStr "False northing"; VInt 0;
    VNone; VNone ];
  [ VInt 65; VStr "Orthographic, clon = 0"; VStr "Orthographic";
    VStr "Latitude of natural origin"; VInt 0;
    VStr "Longitude of natural origin"; VInt 0;
    VStr "False easting"; VInt 0;
    VStr "False northing"; VInt 0;
    VNone; VNone;
    VNone; VNone ];
  [ VInt 70; VStr "Orthographic, clon = 180"; VStr "Orthographic";
    VStr "Latitude of natural origin"; VInt 0;
    VStr "Longitude of natural origin"; VInt 180;
    VStr "False easting"; VInt 0;
    VStr "False northing"; VInt 0;
    VNone; VNone;
    VNone; VNone ];
  [ VInt 75; VStr "Lambert Conic Conformal"; VStr "Lambert Conic Conformal (2SP)";
    VStr "Latitude of false origin"; VInt 40;
    VStr "Longitude of false origin"; VInt 0;
    VStr "Latitude of 1st standard parallel"; VInt 20;
    VStr "Latitude of 2nd standard parallel"; VInt 60;
    VStr "Easting at false origin"; VInt 0;
    VStr "Northing at false origin"; VInt 0 ];
  [ VInt 80; VStr "Lambert Azimuthal Equal Area"; VStr "Lambert Azimuthal Equal Area";
    VStr "Latitude of natural origin"; VInt 40;
    VStr "Longitude of natural origin"; VInt 0;
    VStr "False easting"; VInt 0;
    VStr "False northing"; VInt 0;
    VNone; VNone;
    VNone; VNone ];
  [ VInt 85; VStr "Albers Equal Area"; VStr "Albers Equal Area";
    VStr "Latitude of false origin"; VInt 40;
    VStr "Longitude of false origin"; VInt 0;
    VStr "Latitude of 1st standard parallel"; VInt 20;
    VStr "Latitude of 2nd standard parallel"; VInt 60;
    VStr "Easting at false origin"; VInt 0;
    VStr "Northing at false origin"; VInt 0 ];
  [ VInt 90; VStr "Mercator"; VStr "Mercator (Spherical)";
    VStr "Latitude of natural origin"; VInt 0;
    VStr "Longitude of natural origin"; VInt 0;
    VStr "False easting"; VInt 0;
    VStr "False northing"; VInt 0;
    VNone; VNone;
    VNone; VNone ] ]%Z.

(** [ProjectionBody.METHOD_AND_PARAM_MAPPING]. *)
Definition METHOD_AND_PARAM_MAPPING : list (string * list value) := [
  ("Mercator (Spherical)",
     [ VStr "EPSG"; VInt 1026 ]);
  ("Lambert Azimuthal Equal Area (Spherical)",
     [ VStr "EPSG"; VInt 1027 ]);
  ("Equidistant Cylindrical",
     [ VStr "EPSG"; VInt 1028 ]);
  ("Equidistant Cylindrical (Spherical)",
     [ VStr "EPSG"; VInt 1029 ]);
  ("Scale factor at natural origin",
     [ VStr "EPSG"; VInt 8805; VStr (lit "SCALEUNIT[`unity`,1,ID[`EPSG`, 9201]]") ]);
  ("False easting",
     [ VStr "EPSG"; VInt 8806; VStr (lit "LENGTHUNIT[`metre`,1,ID[`EPSG`, 9001]]") ]);
  ("False northing",
     [ VStr "EPSG"; VInt 8807; VStr (lit "LENGTHUNIT[`metre`,1,ID[`EPSG`, 9001]]") ]);
  ("Latitude of natural origin",
     [ VStr "EPSG"; VInt 8801; VStr (lit "ANGLEUNIT[`degree`,0.0174532925199433,ID[`EPSG`, 9122]]") ]);
  ("Longitude of natural origin",
     [ VStr "EPSG"; VInt 8802; VStr (lit "ANGLEUNIT[`degree`,0.0174532925199433,ID[`EPSG`, 9122]]") ]);
  ("Latitude of false origin",
     [ VStr "EPSG"; VInt 8821; VStr (lit "ANGLEUNIT[`degree`,0.0174532925199433,ID[`EPSG`, 9122]]") ]);
  ("Longitude of false origin",
     [ VStr "EPSG"; VInt 8822; VStr (lit "ANGLEUNIT[`degree`,0.0174532925199433,ID[`EPSG`, 9122]]") ]);
  ("Latitude of 1st standard parallel",
     [ VStr "EPSG"; VInt 8823; VStr (lit "ANGLEUNIT[`degree`,0.0174532925199433,ID[`EPSG`, 9122]]") ]);
  ("Latitude of 2nd standard parallel",
     [ VStr "EPSG"; VInt 8824; VStr (lit "ANGLEUNIT[`degree`,0.0174532925199433,ID[`EPSG`, 9122]]") ]);
  ("Easting at false origin",
     [ VStr "EPSG"; VInt 8826; VStr (lit "LENGTHUNIT[`metre`,1,ID[`EPSG`, 9001]]") ]);
  ("Northing at false origin",
     [ VStr "EPSG"; VInt 8827; VStr (lit "LENGTHUNIT[`metre`,1,ID[`EPSG`, 9001]]") ]);
  ("Sinusoidal",
     [ VStr "PROJ"; VStr (lit "`SINUSOIDAL`") ]);
  ("Robinson",
     [ VStr "PROJ"; VStr (lit "`ROBINSON`") ]);
  ("Mollweide",
     [ VStr "PROJ"; VStr (lit "`MOLLWEIDE`") ]);
  ("Transverse Mercator",
     [ VStr "EPSG"; VInt 9807 ]);
  ("Lambert Conic Conformal (2SP)",
     [ VStr "EPSG"; VInt 9802 ]);
  ("Polar Stereographic (variant A)",
     [ VStr "EPSG"; VInt 9810 ]);
  ("Lambert Azimuthal Equal Area",
     [ VStr "EPSG"; VInt 9820 ]);
  ("Albers Equal Area",
     [ VStr "EPSG"; VInt 9822 ]);
  ("Orthographic",
     [ VStr "EPSG"; VInt 9840 ]);
  ("Popular Visualisation Pseudo Mercator",
     [ VStr "EPSG"; VInt 1024 ]) ]%Z.

(** [METHOD_AND_PARAM_MAPPING[k]]: every key of the dictionary is a [str],
    so any other key raises [KeyError]. *)
Fixpoint dict_get (d : list (string * list value)) (k : string)
  : result (list value) :=
  match d with
  | [] => Raise KeyError
  | (k', v) :: d' => if k =? k' then Ok v else dict_get d' k
  end.

Definition mapping_get (k : value) : result (list value) :=
  match k with
  | VStr s => dict_get METHOD_AND_PARAM_MAPPING s
  | _ => Raise KeyError
  end.

(** What reading an element of a numpy array of strings gives: the
    element is stored on a fixed width, filled with NUL characters, and
    the NUL characters at its end are dropped when it is read. *)
Fixpoint strip_nul (s : string) : string :=
  match s with
  | EmptyString => EmptyString
  | String c s' =>
      match strip_nul s' with
      | EmptyString =>
          if Ascii.eqb c NUL then EmptyString else String c EmptyString
      | rest => String c rest
      end
  end.

(** [np.array(xs)] for a list of [int] and [str], as its elements are
    read back: as soon as one element is a [str], the array is an array of
    strings and every element is stored as its [str]; a list of [int]
    only stays an array of integers. *)
Definition np_array (xs : list value) : list value :=
  if existsb is_str xs
  then map (fun v => VStr (strip_nul (str v))) xs
  else xs.

(** [a.reshape(int(len(a) / 2), 2)]: the rows of two elements; an odd
    length cannot be reshaped and raises [ValueError]. *)
Fixpoint reshape2 (xs : list value) : result (list (value * value)) :=
  match xs with
  | [] => Ok []
  | [_] => Raise ValueError
  | a :: b :: xs' => rows <- reshape2 xs' ;; Ok ((a, b) :: rows)
  end.

(** The body of the loop of [Conversion.wkt]: one [PARAMETER] clause. *)
Definition parameter_wkt (parameter : value * value) : result string :=
  method_and_map <- mapping_get (fst parameter) ;;
  unit <- index method_and_map 2 ;;
  authority <- index method_and_map 0 ;;
  authority_code <- index method_and_map 1 ;;
  substitute TEMPLATE_PARAMETER
    [ ("parameter_name", fst parameter);
      ("parameter_value", snd parameter);
      ("unit", unit);
      ("authority", authority);
      ("authority_code", authority_code) ].

(** The separator of the clauses: a comma, a line feed, two tabulations. *)
Definition params_sep : string := lit (String "," (String LF "~~")).

(** [Conversion.wkt]. *)
Definition Conversion_wkt (self : Conversion) : result string :=
  let projection := conversion_projection self in
  let parameters := np_array (filter is_not_None (skipn 3 projection)) in
  parameters <- reshape2 parameters ;;
  params <- mapM parameter_wkt parameters ;;
  conversion_name <- index projection 1 ;;
  method_name <- index projection 2 ;;
  m <- mapping_get method_name ;;
  authority <- index m 0 ;;
  m' <- mapping_get method_name ;;
  authority_code <- index m' 1 ;;
  substitute TEMPLATE_CONVERSION
    [ ("conversion_name", conversion_name);
      ("method_name", method_name);
      ("authority", authority);
      ("authority_code", authority_code);
      ("params", VStr (join params_sep params)) ].

(** ** ProjectionBody *)

Definition PROJ_TEMPLATE_OCENTRIC_SPHERE : string := text [
  "PROJCRS[`$projection_name`,";
  "    BASEGEOGCRS[`$name ($version) $reference`,";
  "        $datum,";
  "        ID[`IAU`, $number_body, $version]],";
  "    $conversion";
  "    CS[Cartesian, 2],";
  "        AXIS[`$direction_name`, $direction,";
  "            ORDER[1],";
  "            LENGTHUNIT[`metre`, 1]],";
  "        AXIS[`Northing (N)`, north,";
  "            ORDER[2],";
  "            LENGTHUNIT[`metre`, 1]],";
  "    ID[`IAU`, $number, $version]]" ].

Definition PROJ_TEMPLATE_OCENTRIC : string := text [
  "PROJCRS[`$projection_name`,";
  "    BASEGEODCRS[`$name ($version) $reference`,";
  "        $datum,";
  "        ID[`IAU`, $number_body, $version]],";
  "    $conversion";
  "    CS[Cartesian, 2],";
  "        AXIS[`$direction_name`, $direction,";
  "            ORDER[1],";
  "            LENGTHUNIT[`metre`, 1]],";
  "        AXIS[`Northing (N)`, north,";
  "            ORDER[2],";
  "            LENGTHUNIT[`metre`, 1]],";
  "    ID[`IAU`, $number, $version]]" ].

Definition PROJ_TEMPLATE_OGRAPHIC : string := text [
  "PROJCRS[`$projection_name`,";
  "    BASEGEOGCRS[`$name ($version) $reference`,";
  "        $datum,";
  "        ID[`IAU`, $number_body, $version]],";
  "    $conversion";
  "    CS[Cartesian, 2],";
  "        AXIS[`$direction_name`, $direction,";
  "            ORDER[1],";
  "            LENGTHUNIT[`metre`, 1]],";
  "        AXIS[`Northing (N)`, north,";
  "            ORDER[2],";
  "            LENGTHUNIT[`metre`, 1]],";
  "    ID[`IAU`, $number, $version]]" ].

(** The attributes of a [ProjectionBody]. *)
Record ProjectionBody : Type := {
  body_crs : BodyCrs;
  projection : list value;
  pb_template : string;
  conversion : Conversion
}.

(** [ProjectionBody._create_conversion]. *)
Definition _create_conversion
    (conversion_name method_name : value) (method_id : string)
    (projection : list value) : Conversion :=
  {| conversion_name := conversion_name;
     method_name := method_name;
     method_id := method_id;
     conversion_projection := projection |}.

(** [ProjectionBody.__init__]: reading [projection[1]] and
    [projection[2]] raises [IndexError] on a shorter list. *)
Definition ProjectionBody_init
    (body_crs : BodyCrs) (projection : list value) (template : string)
  : result ProjectionBody :=
  p1 <- index projection 1 ;;
  p2 <- index projection 2 ;;
  Ok {| body_crs := body_crs;
        projection := projection;
        pb_template := template;
        conversion := _create_conversion p1 p2 "METHOD" projection |}.

Definition is_sphere (s : ReferenceShape) : bool :=
  match s with
  | SPHERE => true
  | _ => false
  end.

(** [ProjectionBody.create].  As in [_get_template_and_number], the last
    [else] of the source has no input in [CrsType]. *)
Definition create (body_crs : BodyCrs) (projection : list value)
  : result ProjectionBody :=
  if CrsType_eqb (crs_type body_crs) OCENTRIC
     && is_sphere (shape (body (datum body_crs)))
  then ProjectionBody_init body_crs projection PROJ_TEMPLATE_OCENTRIC_SPHERE
  else if CrsType_eqb (crs_type body_crs) OCENTRIC
  then ProjectionBody_init body_crs projection PROJ_TEMPLATE_OCENTRIC
  else ProjectionBody_init body_crs projection PROJ_TEMPLATE_OGRAPHIC.

(** *** [iter_projection]

    The generator holds the body and its place in the loop over
    [PROJECTION_DATA]; the catalog itself is a constant that no code of
    the module writes to.  An exception raised by [create] ends the
    generator. *)
Record generator : Type := {
  gen_body_crs : BodyCrs;
  gen_position : nat;
  gen_finished : bool
}.

(** [ProjectionBody.iter_projection(body_crs)]: a generator that has not
    run yet. *)
Definition iter_projection (body_crs : BodyCrs) : generator :=
  {| gen_body_crs := body_crs; gen_position := 0; gen_finished := false |}.

Inductive resumed : Type :=
| Yield (item : ProjectionBody) (g : generator)
| StopIteration (g : generator)
| Throws (e : exn) (g : generator).

Definition finish (g : generator) : generator :=
  {| gen_body_crs := gen_body_crs g;
     gen_position := gen_position g;
     gen_finished := true |}.

(** [next(g)]. *)
Definition next (g : generator) : resumed :=
  if gen_finished g then StopIteration g
  else
    match nth_error PROJECTION_DATA (gen_position g) with
    | None => StopIteration (finish g)
    | Some projection =>
        match create (gen_body_crs g) projection with
        | Ok item =>
            Yield item {| gen_body_crs := gen_body_crs g;
                          gen_position := S (gen_position g);
                          gen_finished := false |}
        | Raise e => Throws e (finish g)
        end
    end.

(** [list(g)], with [fuel] calls of [next] allowed; [None] when the fuel
    runs out before the generator stops. *)
Fixpoint list_of_generator (fuel : nat) (g : generator)
  : option (result (list ProjectionBody)) :=
  match fuel with
  | O => None
  | S fuel' =>
      match next g with
      | Yield item g' =>
          match list_of_generator fuel' g' with
          | Some (Ok items) => Some (Ok (item :: items))
          | other => other
          end
      | StopIteration _ => Some (Ok [])
      | Throws e _ => Some (Raise e)
      end
  end.

(** ** Rendering *)

Section Rendering.

(** [IAU_REPORT.VERSION] (as [str] shows it) and [IAU_REPORT.SOURCE_IAU]
    of [csvforwkt/body.py], and Python's [int] on a [str]. *)
Variable VERSION : string.
Variable SOURCE_IAU : string.
Variable int_of_str : string -> result Z.

(** [BodyCrs._create_remark]. *)
Definition _create_remark (self : BodyCrs) : string :=
  match warning (body (datum self)) with
  | None => SOURCE_IAU
  | Some w => w ++ SOURCE_IAU
  end.

(** [BodyCrs.wkt]. *)
Definition BodyCrs_wkt (self : BodyCrs) : result string :=
  match direction self with
  | None => Raise AssertionError
  | Some _ =>
      datum_text <- datum_wkt (datum self) ;;
      substitute (template self)
        [ ("name", VStr (name self));
          ("version", VStr VERSION);
          ("datum", VStr datum_text);
          ("number", VInt (iau_code self));
          ("direction", value_of_option (direction self));
          ("remark", VStr (_create_remark self)) ]
  end.

(** [int(v)]. *)
Definition int (v : value) : result Z :=
  match v with
  | VInt z => Ok z
  | VStr s => int_of_str s
  | VNone => Raise TypeError
  end.

(** [ProjectionBody._create_projection]. *)
Definition _create_projection (self : ProjectionBody) : result string :=
  let projection' :=
    body_name (body (datum (body_crs self))) ++ " (" ++ VERSION ++ ") " in
  if CrsType_eqb (crs_type (body_crs self)) OCENTRIC
     && is_sphere (shape (body (datum (body_crs self))))
  then
    p1 <- index (projection self) 1 ;;
    Ok (projection' ++ "- "
        ++ ReferenceShape_value (shape (body (datum (body_crs self))))
        ++ " / " ++ str p1)
  else
    p1 <- index (projection self) 1 ;;
    Ok (projection' ++ "/ "
        ++ CrsType_value (crs_type (body_crs self))
        ++ " / " ++ str p1).

(** [ProjectionBody._create_reference]. *)
Definition _create_reference (self : ProjectionBody) : string :=
  if CrsType_eqb (crs_type (body_crs self)) OCENTRIC
     && is_sphere (shape (body (datum (body_crs self))))
  then "- " ++ ReferenceShape_value (shape (body (datum (body_crs self))))
  else "/ " ++ CrsType_value (crs_type (body_crs self)).

(** [ProjectionBody.iau_code]. *)
Definition ProjectionBody_iau_code (self : ProjectionBody) : result Z :=
  p0 <- index (projection self) 0 ;;
  offset <- int p0 ;;
  Ok (iau_code (body_crs self) + offset)%Z.

(** The value given for [direction_name] in [ProjectionBody.wkt]. *)
Definition direction_name (self : ProjectionBody) : string :=
  match direction (body_crs self) with
  | Some d => if d =? "west" then "Westing (W)" else "Easting (E)"
  | None => "Easting (E)"
  end.

(** [ProjectionBody.wkt]: the keyword arguments are evaluated in the
    order they are written, then the template is filled. *)
Definition ProjectionBody_wkt (self : ProjectionBody) : result string :=
  projection_name <- _create_projection self ;;
  datum_text <- datum_wkt (datum (body_crs self)) ;;
  p0 <- index (projection self) 0 ;;
  offset <- int p0 ;;
  conversion_text <- Conversion_wkt (conversion self) ;;
  substitute (pb_template self)
    [ ("projection_name", VStr projection_name);
      ("name", VStr (name (body_crs self)));
      ("version", VStr VERSION);
      ("datum", VStr datum_text);
      ("number", VInt (iau_code (body_crs self) + offset));
      ("number_body", VInt (iau_code (body_crs self)));
      ("conversion", VStr conversion_text);
      ("reference", VStr (_create_reference self));
      ("direction", value_of_option (direction (body_crs self)));
      ("direction_name", VStr (direction_name self)) ].

End Rendering.


(** ** Planetocentric and Planetographic *)

(** The two classes, [Planetographic] being the subclass that overrides
    [crs_type] and [_create_crs]. *)
Inductive FrameClass : Type :=
| PLANETOCENTRIC
| PLANETOGRAPHIC.

Section Factories.

(** What [csvforwkt/body.py] and [csvforwkt/datum.py] provide:
    [IBody.create], the class [Anchor] with its constructor, and
    [Datum.create]; [number] is the type of the cells that hold the radii
    of a body. *)
Variable number : Type.
Variable Anchor : Type.
Variable Anchor_init : string -> result Anchor.
Variable IBody_create :
  ReferenceShape -> string -> number -> number -> number -> number
  -> result IBody.
Variable Datum_create : string -> IBody -> Anchor -> result Datum.

(** The columns a factory reads in a row of the table of bodies, with the
    types the table gives them. *)
Record Row : Type := {
  Body : string;
  IAU2015_Semimajor : number;
  IAU2015_Semiminor : number;
  IAU2015_Axisb : number;
  IAU2015_Mean : number;
  origin_long_name : string;
  origin_lon_pos : string;
  Naif_id : Z;
  rotation : string
}.

(** The attributes of a [Planetocentric] (or of a [Planetographic]). *)
Record Planetocentric : Type := {
  frame_class : FrameClass;
  row : Row;
  ref_shape : ReferenceShape;
  crs : BodyCrs
}.

(** The property [crs_type] of each class. *)
Definition frame_crs_type (k : FrameClass) : CrsType :=
  match k with
  | PLANETOCENTRIC => OCENTRIC
  | PLANETOGRAPHIC => OGRAPHIC
  end.

(** [Planetocentric._create_body]. *)
Definition _create_body (self_row : Row) (self_ref_shape : ReferenceShape)
  : result IBody :=
  IBody_create self_ref_shape (Body self_row)
    (IAU2015_Semimajor self_row) (IAU2015_Semiminor self_row)
    (IAU2015_Axisb self_row) (IAU2015_Mean self_row).

(** [Planetocentric._create_datum]. *)
Definition _create_datum (self_row : Row) (body : IBody) : result Datum :=
  anchor <- Anchor_init
              (origin_long_name self_row ++ " : " ++ origin_lon_pos self_row) ;;
  Datum_create (Body self_row) body anchor.

(** [_create_crs], of [Planetocentric] or overridden by
    [Planetographic]. *)
Definition _create_crs (k : FrameClass) (self_row : Row) (datum : Datum)
  : result BodyCrs :=
  match k with
  | PLANETOCENTRIC =>
      BodyCrs_init datum (Naif_id self_row) (rotation self_row) OCENTRIC
  | PLANETOGRAPHIC =>
      BodyCrs_init datum (Naif_id self_row) (rotation self_row) OGRAPHIC
  end.

(** [Planetocentric._crs]. *)
Definition _crs (k : FrameClass) (self_row : Row)
    (self_ref_shape : ReferenceShape) : result BodyCrs :=
  shape <- _create_body self_row self_ref_shape ;;
  datum <- _create_datum self_row shape ;;
  _create_crs k self_row datum.

(** [Planetocentric.__init__], which [Planetographic] inherits. *)
Definition Planetocentric_init (k : FrameClass) (row : Row)
    (ref_shape : ReferenceShape) : result Planetocentric :=
  crs <- _crs k row ref_shape ;;
  Ok {| frame_class := k; row := row; ref_shape := ref_shape; crs := crs |}.

(** [Planetocentric.wkt]. *)
Definition Planetocentric_wkt (VERSION SOURCE_IAU : string)
    (self : Planetocentric) : result string :=
  BodyCrs_wkt VERSION SOURCE_IAU (crs self).

End Factories.
(** * Definitions that follow the specification *)

(** The ASCII alphabet. *)
Definition all_ascii : list ascii := map ascii_of_nat (seq 0 256).

(** Two characters are the same letter when they are equal or when one is
    the capital of the other. *)
Definition same_letter (a b : ascii) : bool :=
  Ascii.eqb a b
  || (is_lower a && is_upper b && (nat_of_ascii a =? nat_of_ascii b + 32)%nat)
  || (is_upper a && is_lower b && (nat_of_ascii b =? nat_of_ascii a + 32)%nat).

(** Equality of two names without regard to case. *)
Fixpoint equal_ignoring_case (s t : string) : bool :=
  match s, t with
  | EmptyString, EmptyString => true
  | String a s', String b t' => same_letter a b && equal_ignoring_case s' t'
  | _, _ => false
  end.

(** Two names compare equal without regard to case when their forms in
    capitals, as [str.upper] makes them, are equal. *)
Definition equal_in_capitals (s t : string) : bool := upper s =? upper t.

(** A name that is SUN, EARTH or MOON without regard to case. *)
Definition historical_name (name : string) : bool :=
  existsb (equal_in_capitals name) ["SUN"; "EARTH"; "MOON"].

(** The first rule of the resolver, as the specification words it. *)
Definition historical_or_small_body (name : string) (registry_identifier : Z)
  : bool :=
  (registry_identifier >=? 90000)%Z || historical_name name.

(** The decision order of the specification, first match wins. *)
Definition resolve_direction
    (name rotation : string) (frame : CrsType) (registry_identifier : Z)
  : option string :=
  if historical_or_small_body name registry_identifier then Some "east"
  else
    match frame with
    | OCENTRIC => Some "east"
    | OGRAPHIC =>
        if rotation =? "Direct" then Some "west"
        else if rotation =? "Retrograde" then Some "east"
        else None
    end.


(** The table of the specification, from a shape and a frame type to the
    offset of the code. *)
Definition offset_table (s : ReferenceShape) (t : CrsType) : option Z :=
  match s, t with
  | SPHERE, OCENTRIC => Some 0%Z
  | ELLIPSE, OGRAPHIC => Some 1%Z
  | ELLIPSE, OCENTRIC => Some 2%Z
  | TRIAXIAL, OGRAPHIC => Some 3%Z
  | TRIAXIAL, OCENTRIC => Some 4%Z
  | _, _ => None
  end.

(** The template family of the specification for a shape and a frame
    type. *)
Definition template_family (s : ReferenceShape) (t : CrsType) : option string :=
  match s, t with
  | SPHERE, OCENTRIC => Some TEMPLATE_SPHERE
  | ELLIPSE, OCENTRIC | TRIAXIAL, OCENTRIC => Some TEMPLATE_OCENTRIC
  | ELLIPSE, OGRAPHIC | TRIAXIAL, OGRAPHIC => Some TEMPLATE_OGRAPHIC
  | _, _ => None
  end.

Definition nl : string := String LF EmptyString.

(** The text of a geographic or geocentric CRS: the wrapper keyword, the
    end of its label, the kind of coordinate system, the names of the two
    axes, then what the body contributes. *)
Definition crs_text
    (keyword label cs latitude longitude : string)
    (body_name version datum_text direction number remark : string) : string :=
  keyword ++ lit "[`" ++ body_name ++ " (" ++ version ++ ")" ++ label
    ++ lit "`," ++ nl ++
  "    " ++ datum_text ++ "," ++ nl ++
  lit "~CS[" ++ cs ++ ", 2]," ++ nl ++
  lit "~    AXIS[`" ++ latitude ++ lit "`, north," ++ nl ++
  lit "~        ORDER[1]," ++ nl ++
  lit "~        ANGLEUNIT[`degree`, 0.0174532925199433]]," ++ nl ++
  lit "~    AXIS[`" ++ longitude ++ lit "`, " ++ direction ++ "," ++ nl ++
  lit "~        ORDER[2]," ++ nl ++
  lit "~        ANGLEUNIT[`degree`, 0.0174532925199433]]," ++ nl ++
  lit "~ID[`IAU`, " ++ number ++ ", " ++ version ++ "]," ++ nl ++
  lit "~REMARK[`" ++ remark ++ lit "`]]".

(** The three families: a GEOGCRS on an ellipsoidal system with the
    longitude to the east for a sphere, a GEODCRS on a spherical system
    for the other Ocentric bodies, a GEOGCRS on an ellipsoidal system with
    the direction of the body for the Ographic ones. *)
Definition family_text
    (s : ReferenceShape) (t : CrsType)
    (body_name version datum_text direction number remark : string) : string :=
  match t, s with
  | OCENTRIC, SPHERE =>
      crs_text "GEOGCRS" " - Sphere " "ellipsoidal"
        "geodetic latitude (Lat)" "geodetic longitude (Lon)"
        body_name version datum_text "east" number remark
  | OCENTRIC, _ =>
      crs_text "GEODCRS" " / Ocentric" "spherical"
        "planetocentric latitude (U)" "planetocentric longitude (V)"
        body_name version datum_text "east" number remark
  | OGRAPHIC, _ =>
      crs_text "GEOGCRS" " / Ographic" "ellipsoidal"
        "geodetic latitude (Lat)" "geodetic longitude (Lon)"
        body_name version datum_text direction number remark
  end.

(** ** Bodies used as examples *)

Definition example_datum (body_name : string) (s : ReferenceShape) : Datum :=
  {| datum_name := body_name;
     body := {| body_name := body_name; shape := s; warning := None |};
     datum_wkt := Ok "DATUM[...]" |}.

(** An Ographic body whose rotation is unknown: no direction. *)
Definition io_ographic : BodyCrs :=
  {| datum := example_datum "Io" ELLIPSE;
     crs_type := OGRAPHIC;
     direction := None;
     name := "Io";
     iau_code := 50101;
     template := TEMPLATE_OGRAPHIC |}.

Definition mars_ocentric : BodyCrs :=
  {| datum := example_datum "Mars" ELLIPSE;
     crs_type := OCENTRIC;
     direction := Some "east";
     name := "Mars";
     iau_code := 49902;
     template := TEMPLATE_OCENTRIC |}.

(** An [int] on strings that accepts nothing, for the examples. *)
Definition no_int (s : string) : result Z := Raise ValueError.

(** ** Conversions and projected CRS as the specification describes them *)

(** One [PARAMETER] clause. *)
Definition parameter_clause
    (parameter_name parameter_value unit authority authority_code : string)
  : string :=
  lit "PARAMETER[`" ++ parameter_name ++ lit "`, " ++ parameter_value ++ ","
    ++ nl ++
  "            " ++ unit ++ "," ++ nl ++
  lit "            ID[`" ++ authority ++ lit "`, " ++ authority_code ++ "]]".

(** The [CONVERSION] clause around the parameter clauses. *)
Definition conversion_clause
    (conversion_name method_name authority authority_code params : string)
  : string :=
  lit "CONVERSION[`" ++ conversion_name ++ lit "`," ++ nl ++
  lit "        METHOD[`" ++ method_name ++ lit "`," ++ nl ++
  lit "            ID[`" ++ authority ++ lit "`, " ++ authority_code ++ "]],"
    ++ nl ++
  "        " ++ params ++ "],".

(** The list of a projection record: the offset, the display name, the
    method name, the present pairs of a parameter name and a value in
    their order, then the unused slots. *)
Definition slots_of (pairs : list (string * Z)) : list value :=
  flat_map (fun p => [VStr (fst p); VInt (snd p)]) pairs.

Definition catalog_record
    (offset : Z) (display_name method : string) (pairs : list (string * Z))
    (unused : nat) : list value :=
  VInt offset :: VStr display_name :: VStr method
    :: (slots_of pairs ++ repeat VNone unused)%list.

(** The clause of one pair.  The parameter name is the one read back
    from the array, without the NUL characters at its end; the mapping
    gives the authority, its code and the unit of that name; a name
    without mapping is a [KeyError], an entry without unit an
    [IndexError]. *)
Definition mapped_parameter (p : string * Z) : result string :=
  match dict_get METHOD_AND_PARAM_MAPPING (strip_nul (fst p)) with
  | Ok (authority :: authority_code :: unit :: _) =>
      Ok (parameter_clause (strip_nul (fst p)) (str_of_int (snd p)) (str unit)
            (str authority) (str authority_code))
  | Ok _ => Raise IndexError
  | Raise e => Raise e
  end.


(** Reading a list back as a record. *)
Fixpoint pairs_of (slots : list value) : list (string * Z) :=
  match slots with
  | VStr parameter_name :: VInt v :: slots' =>
      (parameter_name, v) :: pairs_of slots'
  | _ => []
  end.

Definition record_of (projection : list value)
  : option (Z * string * string * list (string * Z) * nat) :=
  match projection with
  | VInt offset :: VStr display_name :: VStr method :: slots =>
      let pairs := pairs_of slots in
      Some (offset, display_name, method, pairs,
            (List.length slots - 2 * List.length pairs)%nat)
  | _ => None
  end.

(** The offset of a projection list, when it starts with an [int]. *)
Definition offset_of (projection : list value) : option Z :=
  match projection with
  | VInt offset :: _ => Some offset
  | _ => None
  end.

(** The keyword of the base CRS nested in a projected CRS. *)
Definition base_keyword (s : ReferenceShape) (t : CrsType) : string :=
  match t, s with
  | OCENTRIC, SPHERE => "BASEGEOGCRS"
  | OCENTRIC, _ => "BASEGEODCRS"
  | OGRAPHIC, _ => "BASEGEOGCRS"
  end.

(** The end of the label of the base CRS. *)
Definition reference_label (s : ReferenceShape) (t : CrsType) : string :=
  match t, s with
  | OCENTRIC, SPHERE => "- Sphere"
  | _, _ => "/ " ++ CrsType_value t
  end.

(** The text of a projected CRS. *)
Definition projected_text
    (base projection_name body_name version reference datum_text number_body
       conversion_text axis_label direction number : string) : string :=
  lit "PROJCRS[`" ++ projection_name ++ lit "`," ++ nl ++
  "    " ++ base ++ lit "[`" ++ body_name ++ " (" ++ version ++ ") "
    ++ reference ++ lit "`," ++ nl ++
  "        " ++ datum_text ++ "," ++ nl ++
  lit "        ID[`IAU`, " ++ number_body ++ ", " ++ version ++ "]]," ++ nl ++
  "    " ++ conversion_text ++ nl ++
  "    CS[Cartesian, 2]," ++ nl ++
  lit "        AXIS[`" ++ axis_label ++ lit "`, " ++ direction ++ "," ++ nl ++
  "            ORDER[1]," ++ nl ++
  lit "            LENGTHUNIT[`metre`, 1]]," ++ nl ++
  lit "        AXIS[`Northing (N)`, north," ++ nl ++
  "            ORDER[2]," ++ nl ++
  lit "            LENGTHUNIT[`metre`, 1]]," ++ nl ++
  lit "    ID[`IAU`, " ++ number ++ ", " ++ version ++ "]]".

(** The template of a projected CRS for a shape and a frame type. *)
Definition projected_template (s : ReferenceShape) (t : CrsType) : string :=
  match t, s with
  | OCENTRIC, SPHERE => PROJ_TEMPLATE_OCENTRIC_SPHERE
  | OCENTRIC, _ => PROJ_TEMPLATE_OCENTRIC
  | OGRAPHIC, _ => PROJ_TEMPLATE_OGRAPHIC
  end.

(** The North Polar entry of the catalog. *)
Definition north_polar : list value :=
  catalog_record 30 "North Polar" "Polar Stereographic (variant A)"
    [ ("Latitude of natural origin", 90%Z);
      ("Longitude of natural origin", 0%Z);
      ("Scale factor at natural origin", 1%Z);
      ("False easting", 0%Z);
      ("False northing", 0%Z) ] 2.

(** The name of a projected CRS. *)
Definition projection_label
    (s : ReferenceShape) (t : CrsType) (body_name version : string)
    (display_name : value) : string :=
  (body_name ++ " (" ++ version ++ ") ") ++ reference_label s t ++ " / "
    ++ str display_name.

(** The first entry of the catalog. *)
Definition equirectangular : list value :=
  catalog_record 10 "Equirectangular, clon = 0" "Equidistant Cylindrical"
    [ ("Latitude of 1st standard parallel", 0%Z);
      ("Longitude of natural origin", 0%Z);
      ("False easting", 0%Z);
      ("False northing", 0%Z) ] 4.

(** The [ProjectionBody] of a body for one entry of the catalog. *)
Definition projection_body (bc : BodyCrs) (projection : list value)
  : ProjectionBody :=
  {| body_crs := bc;
     projection := projection;
     pb_template := projected_template (shape (body (datum bc))) (crs_type bc);
     conversion :=
       _create_conversion (nth 1 projection VNone) (nth 2 projection VNone)
         "METHOD" projection |}.

(** One [ProjectionBody] per entry of the catalog, in its order. *)
Definition projection_bodies (bc : BodyCrs) : list ProjectionBody :=
  map (projection_body bc) PROJECTION_DATA.

(** The offsets of the catalog, in its order. *)
Definition catalog_offsets : list Z :=
  [10; 15; 20; 25; 30; 35; 40; 45; 50; 55; 60; 65; 70; 75; 80; 85; 90]%Z.




(** The long s, U+017F, in UTF-8, and a name written with it. *)
Definition long_s : string :=
  String (ascii_of_nat 197) (String (ascii_of_nat 191) EmptyString).

Definition long_s_un : string := long_s ++ "un".

(** [str.upper] on the runs of characters outside ASCII that the examples
    meet: the capital of the long s is the ASCII letter S. *)
Definition example_upper (run : string) : string :=
  if run =? long_s then "S" else run.

(** ** Stand-ins for the external constructors, for the examples *)

Definition example_IBody_create
    (s : ReferenceShape) (body_name : string) (a b c mean : Z) : result IBody :=
  Ok {| body_name := body_name; shape := s; warning := None |}.

Definition example_Anchor_init (s : string) : result string := Ok s.

Definition example_Datum_create (body_name : string) (b : IBody) (anchor : string)
  : result Datum :=
  Ok {| datum_name := body_name; body := b; datum_wkt := Ok anchor |}.

Definition example_row : Row Z :=
  {| Body := "Mars";
     IAU2015_Semimajor := 3396190%Z;
     IAU2015_Semiminor := 3376200%Z;
     IAU2015_Axisb := 3396190%Z;
     IAU2015_Mean := 3389500%Z;
     origin_long_name := "Viking 1 lander";
     origin_lon_pos := "47.95137 W";
     Naif_id := 499%Z;
     rotation := "Direct" |}.
(** * Properties *)

(** ** Tactics and general lemmas *)

Ltac inv H := inversion H; subst; clear H.

(** Case analysis on the shape and the frame of a datum. *)
Ltac by_shape d ct :=
  destruct ct; destruct d as [dn [bn [ | | | lbl] w] dw]; simpl in *.

Lemma bind_Ok {A B : Type} (r : result A) (k : A -> result B) (b : B) :
  bind r k = Ok b -> exists a, r = Ok a /\ k a = Ok b.
Proof.
  destruct r as [a | e]; simpl; intros H.
  - exists a. split; [reflexivity | exact H].
  - discriminate H.
Qed.

Lemma bind_Raise {A B : Type} (r : result A) (k : A -> result B) (e : exn) :
  r = Raise e -> bind r k = Raise e.
Proof. intros ->. reflexivity. Qed.

Lemma is_ok_true {A : Type} (r : result A) :
  is_ok r = true <-> exists a, r = Ok a.
Proof.
  destruct r as [a | e]; simpl; split; intros H.
  - exists a. reflexivity.
  - reflexivity.
  - discriminate H.
  - destruct H as [a H]. discriminate H.
Qed.

(** ** The ASCII alphabet *)

Lemma all_ascii_complete (c : ascii) : In c all_ascii.
Proof.
  unfold all_ascii. rewrite <- (ascii_nat_embedding c).
  apply in_map, in_seq. pose proof (nat_ascii_bounded c). lia.
Qed.

(** ** C1: the direction rule *)

Lemma same_letter_upper_char (a b : ascii) :
  same_letter a b = Ascii.eqb (upper_char a) (upper_char b).
Proof.
  assert (H : forallb (fun x => forallb (fun y =>
                Bool.eqb (same_letter x y)
                         (Ascii.eqb (upper_char x) (upper_char y)))
              all_ascii) all_ascii = true) by (vm_compute; reflexivity).
  rewrite forallb_forall in H.
  specialize (H a (all_ascii_complete a)).
  rewrite forallb_forall in H.
  specialize (H b (all_ascii_complete b)).
  apply Bool.eqb_prop in H. exact H.
Qed.

Lemma equal_ignoring_case_upper (s t : string) :
  equal_ignoring_case s t = (ascii_upper s =? ascii_upper t).
Proof.
  revert t. induction s as [ | a s IH]; intros [ | b t]; simpl; try reflexivity.
  rewrite same_letter_upper_char, IH.
  destruct (Ascii.eqb (upper_char a) (upper_char b)); reflexivity.
Qed.

(** Two bytes that are the same letter are both ASCII or both not, have
    the same capital, and are equal when they are not ASCII. *)
Lemma same_letter_capital (a b : ascii) :
  same_letter a b = true ->
  is_ascii_char a = is_ascii_char b
  /\ upper_char a = upper_char b
  /\ (is_ascii_char a = false -> a = b).
Proof.
  assert (H : forallb (fun x => forallb (fun y =>
                implb (same_letter x y)
                  (Bool.eqb (is_ascii_char x) (is_ascii_char y)
                   && Ascii.eqb (upper_char x) (upper_char y)
                   && (is_ascii_char x || Ascii.eqb x y)))
              all_ascii) all_ascii = true) by (vm_compute; reflexivity).
  rewrite forallb_forall in H.
  specialize (H a (all_ascii_complete a)).
  rewrite forallb_forall in H.
  specialize (H b (all_ascii_complete b)).
  intros Hab. rewrite Hab in H. cbn [implb] in H.
  apply andb_prop in H. destruct H as [H H3].
  apply andb_prop in H. destruct H as [H1 H2].
  apply Bool.eqb_prop in H1. apply Ascii.eqb_eq in H2.
  split; [exact H1 | split; [exact H2 | ] ].
  intros Ha. rewrite Ha in H3. apply Ascii.eqb_eq. exact H3.
Qed.

(** [str.upper] does not tell apart two names that are equal without
    regard to the case of their ASCII letters. *)
Lemma upper_from_ignoring_case (s t : string) :
  equal_ignoring_case s t = true ->
  forall run, upper_from run s = upper_from run t.
Proof.
  revert t. induction s as [ | a s IH]; intros [ | b t];
    cbn [equal_ignoring_case]; try discriminate; [reflexivity | ].
  intros H run. apply andb_prop in H. destruct H as [Hab Hst].
  destruct (same_letter_capital a b Hab) as [H1 [H2 H3]].
  cbn [upper_from]. rewrite <- H1, <- H2.
  destruct (is_ascii_char a) eqn:Ha.
  - rewrite (IH t Hst EmptyString). reflexivity.
  - rewrite <- (H3 eq_refl). apply (IH t Hst).
Qed.

Lemma upper_ignoring_case (s t : string) :
  equal_ignoring_case s t = true -> upper s = upper t.
Proof. intros H. apply (upper_from_ignoring_case s t H). Qed.

(** On an ASCII string [str.upper] changes the small letters only. *)
Lemma upper_from_ascii (s : string) :
  is_ascii s = true ->
  forall run, upper_from run s = upper_run run ++ ascii_upper s.
Proof.
  induction s as [ | c s IH]; cbn [is_ascii upper_from ascii_upper].
  - intros _ run. destruct (upper_run run) as [ | x r]; [reflexivity | ].
    cbn [append]. f_equal. induction r as [ | y r IHr]; [reflexivity | ].
    cbn [append]. f_equal. exact IHr.
  - intros H run. apply andb_prop in H. destruct H as [Hc Hs].
    rewrite Hc, (IH Hs EmptyString). reflexivity.
Qed.

Lemma upper_ascii (s : string) :
  is_ascii s = true -> upper s = ascii_upper s.
Proof. intros H. apply (upper_from_ascii s H EmptyString). Qed.

(** The test of the code, [name.upper() in ["SUN", "EARTH", "MOON"]], is
    the test of the three names without regard to case. *)
Lemma historical_names (name : string) :
  historical_name name = str_in (upper name) ["SUN"; "EARTH"; "MOON"].
Proof. reflexivity. Qed.

Lemma first_rule_test (name : string) (number_body : Z) :
  (90000 <=? number_body)%Z || str_in (upper name) ["SUN"; "EARTH"; "MOON"]
  = historical_or_small_body name number_body.
Proof.
  unfold historical_or_small_body.
  rewrite historical_names, Z.geb_leb. reflexivity.
Qed.

(** On an ASCII name the test of the names is the comparison letter by
    letter without regard to case. *)
Lemma historical_name_ascii (name : string) :
  is_ascii name = true ->
  historical_name name
  = existsb (equal_ignoring_case name) ["SUN"; "EARTH"; "MOON"].
Proof.
  intros Hname. rewrite historical_names. cbn [str_in existsb].
  rewrite (upper_ascii name Hname), !equal_ignoring_case_upper. reflexivity.
Qed.

(** A name that is SUN, EARTH or MOON letter by letter without regard to
    case passes the test, ASCII or not. *)
Lemma historical_name_letters (name : string) :
  existsb (equal_ignoring_case name) ["SUN"; "EARTH"; "MOON"] = true ->
  historical_name name = true.
Proof.
  intros H. apply existsb_exists in H. destruct H as [w [Hw H]].
  unfold historical_name. apply existsb_exists. exists w.
  split; [exact Hw | ]. unfold equal_in_capitals.
  rewrite (upper_ignoring_case name w H). apply String.eqb_refl.
Qed.

(** C1.  For every body name, rotation token, frame type and registry
    identifier, [_create_direction] follows the decision order of the
    specification: east when the identifier is at least 90000 or the name
    compares equal to SUN, EARTH or MOON without regard to case (the
    forms in capitals, as [str.upper] makes them, are equal); otherwise
    east for an Ocentric frame; otherwise west for the rotation Direct;
    otherwise east for the rotation Retrograde; otherwise no direction.
    In particular, when the first rule applies the result is east whatever
    the rotation token and the frame.  A name that is one of the three
    letter by letter without regard to case passes the test of the names,
    and on an ASCII name the test is that comparison. *)
Theorem create_direction_decision_order :
  forall (name rotation : string) (frame : CrsType) (registry_identifier : Z),
    _create_direction name rotation frame registry_identifier
    = resolve_direction name rotation frame registry_identifier
    /\ (historical_or_small_body name registry_identifier = true ->
        forall rotation' frame',
          _create_direction name rotation' frame' registry_identifier
          = Some "east")
    /\ (existsb (equal_ignoring_case name) ["SUN"; "EARTH"; "MOON"] = true ->
        historical_or_small_body name registry_identifier = true)
    /\ (is_ascii name = true ->
        historical_or_small_body name registry_identifier
        = (registry_identifier >=? 90000)%Z
          || existsb (equal_ignoring_case name) ["SUN"; "EARTH"; "MOON"]).
Proof.
  intros name rotation frame id. split; [ | split; [ | split ] ].
  - unfold _create_direction, resolve_direction.
    rewrite first_rule_test.
    destruct (historical_or_small_body name id); [reflexivity | ].
    destruct frame; reflexivity.
  - intros H rotation' frame'. unfold _create_direction.
    rewrite first_rule_test, H. reflexivity.
  - intros H. unfold historical_or_small_body.
    rewrite (historical_name_letters name H). apply Bool.orb_true_r.
  - intros Hname. unfold historical_or_small_body.
    rewrite (historical_name_ascii name Hname). reflexivity.
Qed.

(** ** C2: the code of a CRS *)

Lemma BodyCrsCode_codes :
  map BodyCrsCode_code BodyCrsCode_members = [0; 1; 2; 3; 4]%Z.
Proof. reflexivity. Qed.

Lemma BodyCrsCode_members_complete (m : BodyCrsCode) : In m BodyCrsCode_members.
Proof. destruct m; simpl; tauto. Qed.

Lemma BodyCrsCode_code_injective (m m' : BodyCrsCode) :
  BodyCrsCode_code m = BodyCrsCode_code m' -> m = m'.
Proof. destruct m, m'; simpl; intros H; (reflexivity || discriminate H). Qed.

Lemma get_code_injective (m m' : BodyCrsCode) (naif_code : Z) :
  get_code m naif_code = get_code m' naif_code -> m = m'.
Proof.
  unfold get_code. intros H. apply BodyCrsCode_code_injective. lia.
Qed.

(** The table of the specification is the payload of the enumeration. *)
Lemma offset_table_member (s : ReferenceShape) (t : CrsType) (offset : Z) :
  offset_table s t = Some offset ->
  exists m, BodyCrsCode_value m
            = (ReferenceShape_value s, CrsType_value t, offset).
Proof.
  destruct s, t; simpl; intros H; inv H.
  - exists SPHERE_OCENTRIC. reflexivity.
  - exists ELLIPSE_OCENTRIC. reflexivity.
  - exists ELLIPSE_OGRAPHIC. reflexivity.
  - exists TRIAXIAL_OCENTRIC. reflexivity.
  - exists TRIAXIAL_OGRAPHIC. reflexivity.
Qed.

Lemma get_template_and_number_valid
    (d : Datum) (t : CrsType) (naif_code offset : Z) :
  offset_table (shape (body d)) t = Some offset ->
  exists tpl,
    _get_template_and_number t d naif_code
    = Ok (tpl, (naif_code * 100 + offset)%Z)
    /\ template_family (shape (body d)) t = Some tpl.
Proof.
  by_shape d t; intros H; inv H; eexists; (split; reflexivity).
Qed.

(** C2.  For every valid pair of a shape and a frame type, with offset
    [offset] in the table (Sphere and Ocentric 0, Ellipse and Ographic 1,
    Ellipse and Ocentric 2, Triaxial and Ographic 3, Triaxial and
    Ocentric 4), and for every registry identifier, the code assigned is
    the identifier times 100 plus the offset, also as the attribute of the
    constructed [BodyCrs]; the offset is the entry of the one member of
    [BodyCrsCode] for that pair and lies in 0..4; the five offsets are
    0, 1, 2, 3, 4 without repetition, two valid pairs with the same code
    for one identifier are the same pair, and the same input gives the
    same code. *)
Theorem crs_code_assignment :
  forall (d : Datum) (t : CrsType) (naif_code offset : Z) (rotation : string),
    offset_table (shape (body d)) t = Some offset ->
    (exists tpl, _get_template_and_number t d naif_code
                 = Ok (tpl, (naif_code * 100 + offset)%Z))
    /\ (exists c, BodyCrs_init d naif_code rotation t = Ok c
                  /\ iau_code c = (naif_code * 100 + offset)%Z)
    /\ (exists m, BodyCrsCode_value m
                  = (ReferenceShape_value (shape (body d)), CrsType_value t,
                     offset)
                  /\ get_code m naif_code = (naif_code * 100 + offset)%Z
                  /\ forall m', BodyCrsCode_shape m' = BodyCrsCode_shape m ->
                                BodyCrsCode_reference m' = BodyCrsCode_reference m ->
                                m' = m)
    /\ In offset [0; 1; 2; 3; 4]%Z
    /\ map BodyCrsCode_code BodyCrsCode_members = [0; 1; 2; 3; 4]%Z
    /\ NoDup (map (fun m => get_code m naif_code) BodyCrsCode_members)
    /\ (forall s' t' offset',
          offset_table s' t' = Some offset' ->
          (naif_code * 100 + offset' = naif_code * 100 + offset)%Z ->
          s' = shape (body d) /\ t' = t)
    /\ (forall r r', _get_template_and_number t d naif_code = r ->
                     _get_template_and_number t d naif_code = r' -> r = r').
Proof.
  intros d t naif_code offset rotation H.
  destruct (get_template_and_number_valid d t naif_code offset H)
    as [tpl [Hnum _]].
  split; [ | split; [ | split; [ | split; [ | split; [ | split; [ | split ]]]]]].
  - exists tpl. exact Hnum.
  - unfold BodyCrs_init. rewrite Hnum. simpl. eexists. split; reflexivity.
  - destruct (offset_table_member _ _ _ H) as [m Hm]. exists m.
    split; [exact Hm | split].
    + unfold get_code, BodyCrsCode_code. rewrite Hm. reflexivity.
    + clear Hm. intros m'. unfold BodyCrsCode_shape, BodyCrsCode_reference.
      destruct m', m; simpl; intros H1 H2;
        first [reflexivity | discriminate H1 | discriminate H2].
  - by_shape d t; inv H; simpl; tauto.
  - reflexivity.
  - unfold BodyCrsCode_members, get_code, BodyCrsCode_code. simpl.
    repeat (apply NoDup_cons; [simpl; intuition lia | ]). apply NoDup_nil.
  - intros s' t' offset' H' Heq.
    destruct s', t'; simpl in H'; inv H'; by_shape d t; inv H;
      first [split; reflexivity | lia].
  - intros r r' <- <-. reflexivity.
Qed.

(** ** Rendering a [BodyCrs] *)

Lemma substitute_TEMPLATE_OGRAPHIC (n v d dir r : string) (num : Z) :
  substitute TEMPLATE_OGRAPHIC
    [ ("name", VStr n); ("version", VStr v); ("datum", VStr d);
      ("number", VInt num); ("direction", VStr dir); ("remark", VStr r) ]
  = Ok (crs_text "GEOGCRS" " / Ographic" "ellipsoidal"
          "geodetic latitude (Lat)" "geodetic longitude (Lon)"
          n v d dir (str_of_int num) r).
Proof. vm_compute. reflexivity. Qed.

Lemma substitute_TEMPLATE_OCENTRIC (n v d r : string) (num : Z) (dir : value) :
  substitute TEMPLATE_OCENTRIC
    [ ("name", VStr n); ("version", VStr v); ("datum", VStr d);
      ("number", VInt num); ("direction", dir); ("remark", VStr r) ]
  = Ok (crs_text "GEODCRS" " / Ocentric" "spherical"
          "planetocentric latitude (U)" "planetocentric longitude (V)"
          n v d "east" (str_of_int num) r).
Proof. vm_compute. reflexivity. Qed.

Lemma substitute_TEMPLATE_SPHERE (n v d r : string) (num : Z) (dir : value) :
  substitute TEMPLATE_SPHERE
    [ ("name", VStr n); ("version", VStr v); ("datum", VStr d);
      ("number", VInt num); ("direction", dir); ("remark", VStr r) ]
  = Ok (crs_text "GEOGCRS" " - Sphere " "ellipsoidal"
          "geodetic latitude (Lat)" "geodetic longitude (Lon)"
          n v d "east" (str_of_int num) r).
Proof. vm_compute. reflexivity. Qed.

(** Picks the rendering lemma of the template in the goal. *)
Ltac render_template :=
  match goal with
  | |- substitute TEMPLATE_OGRAPHIC _ = _ => apply substitute_TEMPLATE_OGRAPHIC
  | |- substitute TEMPLATE_OCENTRIC _ = _ => apply substitute_TEMPLATE_OCENTRIC
  | |- substitute TEMPLATE_SPHERE _ = _ => apply substitute_TEMPLATE_SPHERE
  end.

(** What [wkt] returns for a [BodyCrs] that the constructor built. *)
Lemma BodyCrs_wkt_constructed
    (VERSION SOURCE_IAU : string) (d : Datum) (naif_code : Z)
    (rotation : string) (t : CrsType) (c : BodyCrs) (dir : string) :
  BodyCrs_init d naif_code rotation t = Ok c ->
  direction c = Some dir ->
  BodyCrs_wkt VERSION SOURCE_IAU c
  = (datum_text <- datum_wkt d ;;
     Ok (family_text (shape (body d)) t (datum_name d) VERSION datum_text dir
           (str_of_int (iau_code c)) (_create_remark SOURCE_IAU c))).
Proof.
  unfold BodyCrs_init. intros Hc Hdir.
  apply bind_Ok in Hc. destruct Hc as [[tpl num] [Htn Hc]]. inv Hc.
  unfold BodyCrs_wkt. cbn [direction datum name iau_code template fst snd] in *.
  rewrite Hdir.
  destruct (datum_wkt d) as [dtext | e]; [ | reflexivity ].
  cbn [bind value_of_option].
  unfold _get_template_and_number in Htn.
  destruct t; destruct (shape (body d)); inv Htn; cbn [family_text];
    render_template.
Qed.

(** ** C3: a [BodyCrs] without direction is not rendered *)

(** C3.  For every [BodyCrs] whose direction is unresolved, [wkt] raises
    the assertion error and so returns no text, whatever the template,
    the datum and the other attributes are. *)
Theorem BodyCrs_wkt_unresolved_fails :
  forall (VERSION SOURCE_IAU : string) (c : BodyCrs),
    direction c = None ->
    BodyCrs_wkt VERSION SOURCE_IAU c = Raise AssertionError
    /\ forall s, BodyCrs_wkt VERSION SOURCE_IAU c <> Ok s.
Proof.
  intros VERSION SOURCE_IAU c H. unfold BodyCrs_wkt. rewrite H.
  split; [reflexivity | intros s; discriminate].
Qed.

(** ** C5: the template family *)

(** C5.  For every construction of a [BodyCrs] on a valid pair of a shape
    and a frame type, the template kept is the one of the family of the
    pair: the sphere template for Sphere and Ocentric, the geocentric one
    for Ellipse or Triaxial and Ocentric, the geographic one for Ellipse
    or Triaxial and Ographic.  Rendered, the first is a GEOGCRS on an
    ellipsoidal coordinate system whose longitude axis is east, the
    second a GEODCRS on a spherical coordinate system, the third a GEOGCRS
    on an ellipsoidal coordinate system whose longitude axis carries the
    direction resolved for the body. *)
Theorem BodyCrs_template_family :
  forall (VERSION SOURCE_IAU : string) (d : Datum) (naif_code : Z)
         (rotation : string) (t : CrsType) (tpl : string),
    template_family (shape (body d)) t = Some tpl ->
    exists c,
      BodyCrs_init d naif_code rotation t = Ok c
      /\ template c = tpl
      /\ forall datum_text dir,
           datum_wkt d = Ok datum_text ->
           direction c = Some dir ->
           BodyCrs_wkt VERSION SOURCE_IAU c
           = Ok (family_text (shape (body d)) t (datum_name d) VERSION
                   datum_text dir (str_of_int (iau_code c))
                   (_create_remark SOURCE_IAU c)).
Proof.
  intros VERSION SOURCE_IAU d naif_code rotation t tpl H.
  assert (Hc : exists c, BodyCrs_init d naif_code rotation t = Ok c
                         /\ template c = tpl).
  { unfold BodyCrs_init.
    by_shape d t; inv H; simpl; eexists; split; reflexivity. }
  destruct Hc as [c [Hc Htpl]]. exists c.
  split; [exact Hc | split; [exact Htpl | ]].
  intros datum_text dir Hd Hdir.
  rewrite (BodyCrs_wkt_constructed _ _ _ _ _ _ _ _ Hc Hdir), Hd.
  reflexivity.
Qed.

(** ** C8: the pairs without code *)

(** C8.  For every pair of a shape and a frame type outside the five
    valid ones, that is Sphere with Ographic or a shape that is none of
    the three with either frame type, the constructor of [BodyCrs] raises
    [ValueError]: no [BodyCrs] exists on which [wkt] could be called.
    Conversely the constructor succeeds on each of the five valid
    pairs. *)
Theorem BodyCrs_init_invalid_pair :
  forall (d : Datum) (naif_code : Z) (rotation : string) (t : CrsType),
    ((shape (body d) = SPHERE /\ t = OGRAPHIC)
      \/ (exists label, shape (body d) = OTHER_SHAPE label)
     -> _get_template_and_number t d naif_code = Raise ValueError
        /\ BodyCrs_init d naif_code rotation t = Raise ValueError)
    /\ (offset_table (shape (body d)) t = None
        <-> BodyCrs_init d naif_code rotation t = Raise ValueError)
    /\ (offset_table (shape (body d)) t <> None
        <-> exists c, BodyCrs_init d naif_code rotation t = Ok c).
Proof.
  intros d naif_code rotation t. unfold BodyCrs_init.
  split; [ | split ].
  - unfold _get_template_and_number.
    intros [[Hs Ht] | [label Hs]]; rewrite Hs.
    + subst t. split; reflexivity.
    + destruct t; split; reflexivity.
  - by_shape d t; split; intros H;
      first [reflexivity | discriminate H].
  - by_shape d t; split; intros H;
      first [ eexists; reflexivity
            | discriminate
            | exfalso; apply H; reflexivity
            | destruct H as [c H]; discriminate H ].
Qed.

(** ** C10: where the direction can be unresolved *)

Lemma create_direction_ocentric (name rotation : string) (number_body : Z) :
  _create_direction name rotation OCENTRIC number_body = Some "east".
Proof.
  unfold _create_direction.
  destruct ((90000 <=? number_body)%Z
            || str_in (upper name) ["SUN"; "EARTH"; "MOON"]); reflexivity.
Qed.

Lemma create_direction_unresolved
    (name rotation : string) (t : CrsType) (number_body : Z) :
  _create_direction name rotation t number_body = None
  <-> t = OGRAPHIC
      /\ (number_body < 90000)%Z
      /\ historical_name name = false
      /\ rotation <> "Direct"
      /\ rotation <> "Retrograde".
Proof.
  unfold _create_direction. rewrite historical_names.
  destruct (Z.leb_spec 90000 number_body) as [Hn | Hn];
    destruct (str_in (upper name) ["SUN"; "EARTH"; "MOON"]);
    destruct t; cbn [orb CrsType_eqb];
    destruct (String.eqb_spec rotation "Direct") as [Hd | Hd];
    destruct (String.eqb_spec rotation "Retrograde") as [Hr | Hr];
    (split;
     [ intros H; try discriminate H;
       repeat split; first [assumption | reflexivity | lia]
     | intros (Ht & Hlt & Hh & H1 & H2);
       first [ reflexivity | discriminate Ht | discriminate Hh | lia
             | contradiction ] ]).
Qed.

(** C10.  For every [BodyCrs] constructed with the frame type Ocentric the
    direction is east, whatever the name, the identifier and the rotation
    token, and [wkt] passes its assertion: it returns the text of the
    family as soon as the datum gives its own.  The direction is
    unresolved exactly for an Ographic frame, an identifier below 90000, a
    name that is none of SUN, EARTH and MOON without regard to case (its
    form in capitals, as [str.upper] makes it, is none of the three), and
    a rotation token that is neither Direct nor Retrograde. *)
Theorem ocentric_direction_is_east :
  forall (VERSION SOURCE_IAU : string) (d : Datum) (naif_code : Z)
         (rotation : string),
    _create_direction (datum_name d) rotation OCENTRIC naif_code = Some "east"
    /\ (forall c,
          BodyCrs_init d naif_code rotation OCENTRIC = Ok c ->
          direction c = Some "east"
          /\ (datum_wkt d <> Raise AssertionError ->
              BodyCrs_wkt VERSION SOURCE_IAU c <> Raise AssertionError)
          /\ BodyCrs_wkt VERSION SOURCE_IAU c
             = (datum_text <- datum_wkt d ;;
                Ok (family_text (shape (body d)) OCENTRIC (datum_name d)
                      VERSION datum_text "east" (str_of_int (iau_code c))
                      (_create_remark SOURCE_IAU c))))
    /\ (forall name rotation' t number_body,
          _create_direction name rotation' t number_body = None
          <-> t = OGRAPHIC
              /\ (number_body < 90000)%Z
              /\ historical_name name = false
              /\ rotation' <> "Direct"
              /\ rotation' <> "Retrograde").
Proof.
  intros VERSION SOURCE_IAU d naif_code rotation.
  split; [apply create_direction_ocentric | split].
  - intros c Hc.
    assert (Hdir : direction c = Some "east").
    { unfold BodyCrs_init in Hc. apply bind_Ok in Hc.
      destruct Hc as [tn [_ Hc]]. inv Hc. simpl.
      apply create_direction_ocentric. }
    split; [exact Hdir | ].
    rewrite (BodyCrs_wkt_constructed _ _ _ _ _ _ _ _ Hc Hdir).
    split; [ | reflexivity ].
    destruct (datum_wkt d) as [dtext | e]; simpl; intros Hd H.
    + discriminate H.
    + apply Hd. exact H.
  - intros name rotation' t number_body. apply create_direction_unresolved.
Qed.

(** ** C7: the conversion of a projection record *)

















(** Every entry of the catalog is a record. *)
Lemma PROJECTION_DATA_records :
  Forall (fun projection =>
            match record_of projection with
            | Some (offset, display_name, method, pairs, unused) =>
                projection
                = catalog_record offset display_name method pairs unused
            | None => False
            end) PROJECTION_DATA.
Proof. repeat constructor. Qed.




(** The seventeen entries of the catalog are rendered, the North Polar one
    with five clauses. *)
Lemma catalog_conversions_render :
  Forall (fun projection =>
            is_ok (Conversion_wkt (_create_conversion VNone VNone "METHOD"
                                     projection)) = true)
    PROJECTION_DATA
  /\ nth_error PROJECTION_DATA 4 = Some north_polar
  /\ exists clauses,
       mapM mapped_parameter (pairs_of (skipn 3 north_polar)) = Ok clauses
       /\ List.length clauses = 5%nat.
Proof.
  split; [ | split ].
  - repeat constructor.
  - reflexivity.
  - eexists. split; [vm_compute; reflexivity | reflexivity].
Qed.

(** ** Rendering a [ProjectionBody] *)

Lemma substitute_PROJ_TEMPLATE_OCENTRIC_SPHERE
    (pn n v d cv ref dn : string) (num nb : Z) (dir : value) :
  substitute PROJ_TEMPLATE_OCENTRIC_SPHERE
    [ ("projection_name", VStr pn); ("name", VStr n); ("version", VStr v);
      ("datum", VStr d); ("number", VInt num); ("number_body", VInt nb);
      ("conversion", VStr cv); ("reference", VStr ref); ("direction", dir);
      ("direction_name", VStr dn) ]
  = Ok (projected_text "BASEGEOGCRS" pn n v ref d (str_of_int nb) cv dn
          (str dir) (str_of_int num)).
Proof. vm_compute. reflexivity. Qed.

Lemma substitute_PROJ_TEMPLATE_OCENTRIC
    (pn n v d cv ref dn : string) (num nb : Z) (dir : value) :
  substitute PROJ_TEMPLATE_OCENTRIC
    [ ("projection_name", VStr pn); ("name", VStr n); ("version", VStr v);
      ("datum", VStr d); ("number", VInt num); ("number_body", VInt nb);
      ("conversion", VStr cv); ("reference", VStr ref); ("direction", dir);
      ("direction_name", VStr dn) ]
  = Ok (projected_text "BASEGEODCRS" pn n v ref d (str_of_int nb) cv dn
          (str dir) (str_of_int num)).
Proof. vm_compute. reflexivity. Qed.

Lemma substitute_PROJ_TEMPLATE_OGRAPHIC
    (pn n v d cv ref dn : string) (num nb : Z) (dir : value) :
  substitute PROJ_TEMPLATE_OGRAPHIC
    [ ("projection_name", VStr pn); ("name", VStr n); ("version", VStr v);
      ("datum", VStr d); ("number", VInt num); ("number_body", VInt nb);
      ("conversion", VStr cv); ("reference", VStr ref); ("direction", dir);
      ("direction_name", VStr dn) ]
  = Ok (projected_text "BASEGEOGCRS" pn n v ref d (str_of_int nb) cv dn
          (str dir) (str_of_int num)).
Proof. vm_compute. reflexivity. Qed.

(** Picks the rendering lemma of the projected template in the goal. *)
Ltac render_projected :=
  match goal with
  | |- substitute PROJ_TEMPLATE_OCENTRIC_SPHERE _ = _ =>
      apply substitute_PROJ_TEMPLATE_OCENTRIC_SPHERE
  | |- substitute PROJ_TEMPLATE_OCENTRIC _ = _ =>
      apply substitute_PROJ_TEMPLATE_OCENTRIC
  | |- substitute PROJ_TEMPLATE_OGRAPHIC _ = _ =>
      apply substitute_PROJ_TEMPLATE_OGRAPHIC
  end.

Lemma create_record
    (bc : BodyCrs) (p0 display_name method : value) (slots : list value) :
  create bc (p0 :: display_name :: method :: slots)
  = Ok {| body_crs := bc;
          projection := p0 :: display_name :: method :: slots;
          pb_template :=
            projected_template (shape (body (datum bc))) (crs_type bc);
          conversion :=
            _create_conversion display_name method "METHOD"
              (p0 :: display_name :: method :: slots) |}.
Proof.
  unfold create, projected_template.
  destruct (crs_type bc); destruct (shape (body (datum bc))); reflexivity.
Qed.

Lemma ProjectionBody_wkt_record
    (VERSION : string) (int_of_str : string -> result Z)
    (bc : BodyCrs) (offset : Z) (display_name method : value)
    (slots : list value) (pb : ProjectionBody)
    (datum_text conversion_text : string) :
  create bc (VInt offset :: display_name :: method :: slots) = Ok pb ->
  datum_wkt (datum bc) = Ok datum_text ->
  Conversion_wkt (conversion pb) = Ok conversion_text ->
  ProjectionBody_wkt VERSION int_of_str pb
  = Ok (projected_text
          (base_keyword (shape (body (datum bc))) (crs_type bc))
          (projection_label (shape (body (datum bc))) (crs_type bc)
             (body_name (body (datum bc))) VERSION display_name)
          (name bc) VERSION
          (reference_label (shape (body (datum bc))) (crs_type bc))
          datum_text (str_of_int (iau_code bc)) conversion_text
          (direction_name pb)
          (str (value_of_option (direction bc)))
          (str_of_int (iau_code bc + offset))).
Proof.
  rewrite create_record. intros Hpb Hd Hc. inv Hpb.
  unfold ProjectionBody_wkt, _create_projection, _create_reference,
    projection_label.
  cbn [body_crs projection pb_template conversion] in *.
  rewrite Hd, Hc. cbn [index nth_error bind int].
  generalize (direction_name
                {| body_crs := bc;
                   projection := VInt offset :: display_name :: method :: slots;
                   pb_template :=
                     projected_template (shape (body (datum bc))) (crs_type bc);
                   conversion :=
                     _create_conversion display_name method "METHOD"
                       (VInt offset :: display_name :: method :: slots) |}).
  intros dn.
  destruct (crs_type bc); destruct (shape (body (datum bc)));
    cbn [CrsType_eqb is_sphere andb projected_template base_keyword
         reference_label ReferenceShape_value CrsType_value bind];
    render_projected.
Qed.

(** ** C6: the projected CRS of a record *)

Lemma direction_name_west (pb : ProjectionBody) :
  direction_name pb = "Westing (W)" <-> direction (body_crs pb) = Some "west".
Proof.
  unfold direction_name. destruct (direction (body_crs pb)) as [d | ].
  - destruct (String.eqb_spec d "west") as [-> | Hd]; split; intros H;
      first [reflexivity | discriminate H | inv H; contradiction].
  - split; intros H; discriminate H.
Qed.

Lemma direction_name_east (pb : ProjectionBody) :
  direction (body_crs pb) <> Some "west" -> direction_name pb = "Easting (E)".
Proof.
  unfold direction_name. destruct (direction (body_crs pb)) as [d | ];
    [ | reflexivity ].
  destruct (String.eqb_spec d "west") as [-> | Hd]; intros H;
    [exfalso; apply H; reflexivity | reflexivity].
Qed.

(** C6.  For every [BodyCrs] and every projection list that starts with an
    offset, a display name and a method name, [create] builds the
    [ProjectionBody] of the body and of the list; its template nests
    BASEGEODCRS exactly for an Ocentric body that is not a sphere and
    BASEGEOGCRS otherwise (an Ocentric sphere or an Ographic body); its
    code is the code of the [BodyCrs] plus the offset; the label given to
    the first axis is Westing (W) exactly when the direction of the
    [BodyCrs] is west and Easting (E) otherwise; and when the datum and
    the conversion give their texts, [wkt] returns the projected text with
    that base keyword, that label and these two codes. *)
Theorem projected_crs_of_record :
  forall (VERSION : string) (int_of_str : string -> result Z)
         (bc : BodyCrs) (offset : Z) (display_name method : value)
         (slots : list value),
    exists pb,
      create bc (VInt offset :: display_name :: method :: slots) = Ok pb
      /\ body_crs pb = bc
      /\ projection pb = VInt offset :: display_name :: method :: slots
      /\ pb_template pb
         = projected_template (shape (body (datum bc))) (crs_type bc)
      /\ contains "BASEGEODCRS[" (pb_template pb)
         = CrsType_eqb (crs_type bc) OCENTRIC
           && negb (is_sphere (shape (body (datum bc))))
      /\ contains "BASEGEOGCRS[" (pb_template pb)
         = negb (contains "BASEGEODCRS[" (pb_template pb))
      /\ ProjectionBody_iau_code int_of_str pb
         = Ok (iau_code bc + offset)%Z
      /\ (direction_name pb = "Westing (W)" <-> direction bc = Some "west")
      /\ (direction bc <> Some "west" -> direction_name pb = "Easting (E)")
      /\ forall datum_text conversion_text,
           datum_wkt (datum bc) = Ok datum_text ->
           Conversion_wkt (conversion pb) = Ok conversion_text ->
           ProjectionBody_wkt VERSION int_of_str pb
           = Ok (projected_text
                   (base_keyword (shape (body (datum bc))) (crs_type bc))
                   (projection_label (shape (body (datum bc))) (crs_type bc)
                      (body_name (body (datum bc))) VERSION display_name)
                   (name bc) VERSION
                   (reference_label (shape (body (datum bc))) (crs_type bc))
                   datum_text (str_of_int (iau_code bc)) conversion_text
                   (direction_name pb)
                   (str (value_of_option (direction bc)))
                   (str_of_int (iau_code bc + offset))).
Proof.
  intros VERSION int_of_str bc offset display_name method slots.
  eexists. split; [apply create_record | ].
  split; [reflexivity | split; [reflexivity | split; [reflexivity | ]]].
  split; [ | split; [ | split; [reflexivity | split; [ | split ]]]].
  - cbn [pb_template].
    destruct (crs_type bc); destruct (shape (body (datum bc)));
      vm_compute; reflexivity.
  - cbn [pb_template].
    destruct (crs_type bc); destruct (shape (body (datum bc)));
      vm_compute; reflexivity.
  - match goal with
    | |- direction_name ?pb = _ <-> _ => exact (direction_name_west pb)
    end.
  - match goal with
    | |- _ -> direction_name ?pb = _ => exact (direction_name_east pb)
    end.
  - intros datum_text conversion_text Hd Hc.
    eapply ProjectionBody_wkt_record; [apply create_record | exact Hd | exact Hc].
Qed.

(** ** C4: a projected CRS on a body without direction *)

(** C4 (the code at the input where the claim fails).  The body Io,
    Ographic, an ellipse, identifier 501, with a rotation token that is
    neither Direct nor Retrograde, is constructed without direction and
    [BodyCrs.wkt] refuses to render it; [ProjectionBody.wkt] on the same
    body and the first entry of the catalog raises nothing: it returns a
    projected text whose first axis is Easting (E) with the direction
    written None. *)
Theorem projected_wkt_without_direction :
  forall (VERSION SOURCE_IAU : string) (int_of_str : string -> result Z),
    BodyCrs_init (example_datum "Io" ELLIPSE) 501 "Unknown" OGRAPHIC
    = Ok io_ographic
    /\ direction io_ographic = None
    /\ BodyCrs_wkt VERSION SOURCE_IAU io_ographic = Raise AssertionError
    /\ nth_error PROJECTION_DATA 0 = Some equirectangular
    /\ exists pb conversion_text,
         create io_ographic equirectangular = Ok pb
         /\ Conversion_wkt (conversion pb) = Ok conversion_text
         /\ ProjectionBody_wkt VERSION int_of_str pb
            = Ok (projected_text "BASEGEOGCRS"
                    (("Io (" ++ VERSION ++ ") ")
                       ++ "/ Ographic / Equirectangular, clon = 0")
                    "Io" VERSION "/ Ographic" "DATUM[...]" "50101"
                    conversion_text "Easting (E)" "None" "50111").
Proof.
  intros VERSION SOURCE_IAU int_of_str.
  split; [reflexivity | split; [reflexivity | split; [reflexivity | ]]].
  split; [reflexivity | ].
  pose (pb := {| body_crs := io_ographic;
                 projection := equirectangular;
                 pb_template := PROJ_TEMPLATE_OGRAPHIC;
                 conversion :=
                   _create_conversion (VStr "Equirectangular, clon = 0")
                     (VStr "Equidistant Cylindrical") "METHOD"
                     equirectangular |}).
  assert (Hpb : create io_ographic equirectangular = Ok pb) by reflexivity.
  assert (Hc : exists conversion_text,
                 Conversion_wkt (conversion pb) = Ok conversion_text)
    by (eexists; vm_compute; reflexivity).
  destruct Hc as [conversion_text Hc].
  exists pb, conversion_text.
  split; [exact Hpb | split; [exact Hc | ]].
  rewrite (ProjectionBody_wkt_record VERSION int_of_str io_ographic 10
             (VStr "Equirectangular, clon = 0")
             (VStr "Equidistant Cylindrical")
             (skipn 3 equirectangular) pb "DATUM[...]" conversion_text
             Hpb eq_refl Hc).
  reflexivity.
Qed.

(** ** C9: the iteration over the catalog *)

Lemma catalog_offsets_NoDup : NoDup catalog_offsets.
Proof.
  unfold catalog_offsets.
  repeat (apply NoDup_cons; [simpl; intuition discriminate | ]).
  apply NoDup_nil.
Qed.

Lemma create_catalog (bc : BodyCrs) :
  Forall2 (fun projection pb => create bc projection = Ok pb)
    PROJECTION_DATA (projection_bodies bc).
Proof.
  unfold projection_bodies, PROJECTION_DATA.
  repeat (apply Forall2_cons; [apply create_record | ]).
  apply Forall2_nil.
Qed.

Lemma list_of_generator_catalog (bc : BodyCrs) (fuel : nat) :
  (17 < fuel)%nat ->
  list_of_generator fuel (iter_projection bc) = Some (Ok (projection_bodies bc)).
Proof.
  intros Hfuel.
  do 18 (destruct fuel as [ | fuel]; [lia | ]). clear Hfuel.
  destruct bc as [[dn [bn s w] dw] t dir n code tpl].
  destruct t; destruct s; vm_compute; reflexivity.
Qed.

(** C9.  For every [BodyCrs], the generator of [iter_projection], run to
    its end (eighteen calls of [next] are enough), yields one
    [ProjectionBody] per entry of the catalog, seventeen of them, each on
    that body and on the entry at the same place of the catalog, each the
    one [create] builds; the offsets are 10, 15, ..., 90 in this order,
    all different and between 10 and 90; and a second generator made for
    the same body yields the same sequence. *)
Theorem iter_projection_yields_catalog :
  forall (bc : BodyCrs) (fuel : nat),
    (17 < fuel)%nat ->
    list_of_generator fuel (iter_projection bc)
    = Some (Ok (projection_bodies bc))
    /\ List.length (projection_bodies bc) = 17%nat
    /\ List.length PROJECTION_DATA = 17%nat
    /\ map projection (projection_bodies bc) = PROJECTION_DATA
    /\ Forall (fun pb => body_crs pb = bc) (projection_bodies bc)
    /\ Forall2 (fun projection pb => create bc projection = Ok pb)
         PROJECTION_DATA (projection_bodies bc)
    /\ map (fun pb => offset_of (projection pb)) (projection_bodies bc)
       = map Some catalog_offsets
    /\ NoDup catalog_offsets
    /\ Forall (fun offset => (10 <= offset <= 90)%Z) catalog_offsets
    /\ (forall fuel',
          (17 < fuel')%nat ->
          list_of_generator fuel' (iter_projection bc)
          = list_of_generator fuel (iter_projection bc)).
Proof.
  intros bc fuel Hfuel.
  split; [apply list_of_generator_catalog; exact Hfuel | ].
  split; [reflexivity | split; [reflexivity | ]].
  split; [reflexivity | ].
  split; [unfold projection_bodies; apply Forall_map, Forall_forall;
          intros projection _; reflexivity | ].
  split; [apply create_catalog | ].
  split; [reflexivity | ].
  split; [apply catalog_offsets_NoDup | ].
  split.
  - unfold catalog_offsets. repeat constructor; discriminate.
  - intros fuel' Hfuel'.
    rewrite (list_of_generator_catalog bc fuel Hfuel).
    apply list_of_generator_catalog. exact Hfuel'.
Qed.


(** * Further properties of the module *)

(** ** The direction rule *)

Lemma direction_west_iff
    (name rotation : string) (t : CrsType) (number_body : Z) :
  _create_direction name rotation t number_body = Some "west"
  <-> t = OGRAPHIC
      /\ (number_body < 90000)%Z
      /\ historical_name name = false
      /\ rotation = "Direct".
Proof.
  unfold _create_direction. rewrite historical_names.
  destruct (Z.leb_spec 90000 number_body) as [Hn | Hn];
    destruct (str_in (upper name) ["SUN"; "EARTH"; "MOON"]);
    destruct t; cbn [orb CrsType_eqb];
    destruct (String.eqb_spec rotation "Direct") as [Hd | Hd];
    destruct (String.eqb_spec rotation "Retrograde") as [Hr | Hr];
    (split;
     [ intros H; try discriminate H;
       repeat split; first [assumption | reflexivity | lia]
     | intros (Ht & Hlt & Hh & H1);
       first [ reflexivity | discriminate Ht | discriminate Hh | lia
             | contradiction ] ]).
Qed.

(** West is chosen in one case only: an Ographic frame, an identifier
    below 90000, a name that is none of SUN, EARTH and MOON without regard
    to case (its form in capitals, as [str.upper] makes it, is none of the
    three), and the rotation Direct; and the rule never gives anything but
    east, west or no direction. *)
Theorem create_direction_west :
  forall (name rotation : string) (t : CrsType) (number_body : Z),
    (_create_direction name rotation t number_body = Some "west"
     <-> t = OGRAPHIC
         /\ (number_body < 90000)%Z
         /\ historical_name name = false
         /\ rotation = "Direct")
    /\ (_create_direction name rotation t number_body = Some "east"
        \/ _create_direction name rotation t number_body = Some "west"
        \/ _create_direction name rotation t number_body = None).
Proof.
  intros name rotation t number_body.
  split; [apply direction_west_iff | ].
  unfold _create_direction.
  destruct ((90000 <=? number_body)%Z
            || str_in (upper name) ["SUN"; "EARTH"; "MOON"]);
    [tauto | ].
  destruct (CrsType_eqb t OCENTRIC); [tauto | ].
  destruct (rotation =? "Direct"); [tauto | ].
  destruct (rotation =? "Retrograde"); tauto.
Qed.

(** The direction depends on the name only up to case. *)
Theorem create_direction_ignores_case :
  forall (name name' rotation : string) (t : CrsType) (number_body : Z),
    equal_ignoring_case name name' = true ->
    _create_direction name rotation t number_body
    = _create_direction name' rotation t number_body.
Proof.
  intros name name' rotation t number_body H.
  unfold _create_direction. rewrite (upper_ignoring_case name name' H).
  reflexivity.
Qed.

(** ** The codes of a body *)

Lemma BodyCrs_init_code
    (d : Datum) (naif_code : Z) (rotation : string) (t : CrsType)
    (c : BodyCrs) :
  BodyCrs_init d naif_code rotation t = Ok c ->
  exists offset,
    offset_table (shape (body d)) t = Some offset
    /\ iau_code c = (naif_code * 100 + offset)%Z
    /\ (0 <= offset <= 4)%Z
    /\ datum c = d /\ crs_type c = t
    /\ direction c = _create_direction (datum_name d) rotation t naif_code.
Proof.
  unfold BodyCrs_init, _get_template_and_number. intros H.
  destruct t; destruct (shape (body d)); cbn [bind] in H;
    try discriminate H; inv H; cbn [iau_code snd datum crs_type direction];
    unfold get_code, BodyCrsCode_code; cbn [BodyCrsCode_value snd offset_table];
    eexists; (split; [reflexivity | ]); repeat split; lia.
Qed.

Lemma offset_table_injective
    (s s' : ReferenceShape) (t t' : CrsType) (offset : Z) :
  offset_table s t = Some offset -> offset_table s' t' = Some offset ->
  s = s' /\ t = t'.
Proof.
  destruct s, t; cbn [offset_table]; intros H; inv H;
    destruct s', t'; cbn [offset_table]; intros H; inv H;
    split; reflexivity.
Qed.

Lemma catalog_offset_step (offset : Z) :
  In offset (0%Z :: catalog_offsets) ->
  exists j, offset = (5 * j)%Z /\ (0 <= j <= 18)%Z.
Proof.
  unfold catalog_offsets. cbn [In]. intros H.
  repeat (destruct H as [H | H];
          [exists (offset / 5)%Z; subst offset; split; [reflexivity | ];
           split; discriminate | ]).
  contradiction.
Qed.

(** The entries of the catalog, with their offsets. *)
Lemma PROJECTION_DATA_entries :
  Forall (fun p => exists offset display_name method slots,
                     p = VInt offset :: VStr display_name :: VStr method :: slots
                     /\ In offset catalog_offsets
                     /\ is_ok (Conversion_wkt
                                 (_create_conversion (VStr display_name)
                                    (VStr method) "METHOD" p)) = true)
    PROJECTION_DATA.
Proof.
  unfold PROJECTION_DATA.
  repeat (apply Forall_cons;
          [ do 4 eexists; split; [reflexivity | ];
            split; [cbn [catalog_offsets In]; tauto | vm_compute; reflexivity]
          | ]).
  apply Forall_nil.
Qed.

(** Two entries of the catalog with the same offset are the same entry. *)
Lemma PROJECTION_DATA_offsets_injective (p p' : list value) :
  In p PROJECTION_DATA -> In p' PROJECTION_DATA ->
  offset_of p = offset_of p' -> p = p'.
Proof.
  unfold PROJECTION_DATA. cbn [In]. intros Hp Hp'.
  repeat (destruct Hp as [Hp | Hp]; [subst p | ]); try contradiction;
    repeat (destruct Hp' as [Hp' | Hp']; [subst p' | ]); try contradiction;
    cbn [offset_of]; intros H; first [reflexivity | discriminate H].
Qed.

Lemma codes_decompose (n n' k k' j j' : Z) :
  (0 <= k <= 4)%Z -> (0 <= k' <= 4)%Z ->
  (0 <= j <= 18)%Z -> (0 <= j' <= 18)%Z ->
  (n * 100 + k + 5 * j = n' * 100 + k' + 5 * j')%Z ->
  n = n' /\ k = k' /\ j = j'.
Proof. intros Hk Hk' Hj Hj' H. lia. Qed.

Lemma codes_of_bodies :
  forall (d d' : Datum) (naif_code naif_code' : Z) (rotation rotation' : string)
         (t t' : CrsType) (c c' : BodyCrs) (offset offset' : Z),
    BodyCrs_init d naif_code rotation t = Ok c ->
    BodyCrs_init d' naif_code' rotation' t' = Ok c' ->
    In offset (0%Z :: catalog_offsets) ->
    In offset' (0%Z :: catalog_offsets) ->
    (naif_code * 100 <= iau_code c + offset <= naif_code * 100 + 94)%Z
    /\ ((iau_code c + offset = iau_code c' + offset')%Z ->
        naif_code = naif_code'
        /\ t = t'
        /\ shape (body d) = shape (body d')
        /\ offset = offset').
Proof.
  intros d d' naif_code naif_code' rotation rotation' t t' c c' offset offset'
         Hc Hc' Ho Ho'.
  destruct (BodyCrs_init_code _ _ _ _ _ Hc) as [k [Hk [Hcode [Hkb _]]]].
  destruct (BodyCrs_init_code _ _ _ _ _ Hc') as [k' [Hk' [Hcode' [Hkb' _]]]].
  destruct (catalog_offset_step _ Ho) as [j [Hj Hjb]].
  destruct (catalog_offset_step _ Ho') as [j' [Hj' Hjb']].
  rewrite Hcode, Hcode'. subst offset offset'.
  split; [lia | ].
  intros H.
  destruct (codes_decompose naif_code naif_code' k k' j j' Hkb Hkb' Hjb Hjb' H)
    as [Hn [Hkk Hjj]].
  subst k' j'.
  destruct (offset_table_injective _ _ _ _ _ Hk Hk') as [Hs Ht].
  repeat split; assumption.
Qed.

(** The codes never collide.  Take two constructed [BodyCrs] and, for
    each, either its own code (offset 0) or the code of one of its
    projections (an offset of the catalog): when the two codes are equal,
    the two bodies have the same identifier, the same frame type and the
    same shape, and the two offsets are the same.  Every such code lies
    between the identifier times 100 and the identifier times 100 plus
    94. *)
Theorem iau_codes_do_not_collide :
  forall (d d' : Datum) (naif_code naif_code' : Z) (rotation rotation' : string)
         (t t' : CrsType) (c c' : BodyCrs) (offset offset' : Z),
    BodyCrs_init d naif_code rotation t = Ok c ->
    BodyCrs_init d' naif_code' rotation' t' = Ok c' ->
    In offset (0%Z :: catalog_offsets) ->
    In offset' (0%Z :: catalog_offsets) ->
    (naif_code * 100 <= iau_code c + offset <= naif_code * 100 + 94)%Z
    /\ ((iau_code c + offset = iau_code c' + offset')%Z ->
        naif_code = naif_code'
        /\ t = t'
        /\ shape (body d) = shape (body d')
        /\ offset = offset').
Proof.
  intros d d' naif_code naif_code' rotation rotation' t t' c c' offset offset'.
  apply codes_of_bodies.
Qed.

(** The code of a projection of the catalog is the code of the body plus
    an offset of the catalog, so the statement above covers the codes of
    the [ProjectionBody] that [iter_projection] yields: two of them with
    the same code are on bodies with the same identifier, frame type and
    shape, and on the same entry of the catalog; and the code of one of
    them is never the code of a constructed [BodyCrs], whichever body it
    is. *)
Theorem projected_codes_do_not_collide :
  forall (int_of_str : string -> result Z)
         (d d' d'' : Datum) (naif_code naif_code' naif_code'' : Z)
         (rotation rotation' rotation'' : string)
         (t t' t'' : CrsType) (c c' c'' : BodyCrs) (pb pb' : ProjectionBody),
    BodyCrs_init d naif_code rotation t = Ok c ->
    BodyCrs_init d' naif_code' rotation' t' = Ok c' ->
    BodyCrs_init d'' naif_code'' rotation'' t'' = Ok c'' ->
    In pb (projection_bodies c) ->
    In pb' (projection_bodies c') ->
    (ProjectionBody_iau_code int_of_str pb
     = ProjectionBody_iau_code int_of_str pb' ->
     naif_code = naif_code'
     /\ t = t'
     /\ shape (body d) = shape (body d')
     /\ projection pb = projection pb')
    /\ ProjectionBody_iau_code int_of_str pb <> Ok (iau_code c'').
Proof.
  intros int_of_str d d' d'' naif_code naif_code' naif_code''
         rotation rotation' rotation'' t t' t'' c c' c'' pb pb'
         Hc Hc' Hc'' Hpb Hpb'.
  unfold projection_bodies in Hpb, Hpb'.
  apply in_map_iff in Hpb. destruct Hpb as [p [Hp Hin]]. subst pb.
  apply in_map_iff in Hpb'. destruct Hpb' as [p' [Hp' Hin']]. subst pb'.
  pose proof PROJECTION_DATA_entries as Hall. rewrite Forall_forall in Hall.
  destruct (Hall p Hin) as [o [dn [m [sl [Hpe [Ho _]]]]]].
  destruct (Hall p' Hin') as [o' [dn' [m' [sl' [Hpe' [Ho' _]]]]]].
  assert (Hcp : ProjectionBody_iau_code int_of_str (projection_body c p)
                = Ok (iau_code c + o)%Z) by (rewrite Hpe; reflexivity).
  assert (Hcp' : ProjectionBody_iau_code int_of_str (projection_body c' p')
                 = Ok (iau_code c' + o')%Z) by (rewrite Hpe'; reflexivity).
  assert (Hoo : In o (0%Z :: catalog_offsets)) by (right; exact Ho).
  assert (Hoo' : In o' (0%Z :: catalog_offsets)) by (right; exact Ho').
  rewrite Hcp, Hcp'. split.
  - intros Hcode. injection Hcode as H0.
    destruct (proj2 (codes_of_bodies _ _ _ _ _ _ _ _ _ _ _ _
                       Hc Hc' Hoo Hoo') H0) as [Hn [Ht [Hs Heq]]].
    split; [exact Hn | split; [exact Ht | split; [exact Hs | ]]].
    cbn [projection_body projection].
    apply PROJECTION_DATA_offsets_injective; [exact Hin | exact Hin' | ].
    rewrite Hpe, Hpe', Heq. reflexivity.
  - assert (Hz : In 0%Z (0%Z :: catalog_offsets)) by (left; reflexivity).
    intros Habs. injection Habs as Habs.
    destruct (proj2 (codes_of_bodies _ _ _ _ _ _ _ _ _ _ _ _
                       Hc Hc'' Hoo Hz)) as [_ [_ [_ Ho0]]]; [lia | ].
    rewrite Ho0 in Ho. unfold catalog_offsets in Ho. cbn [In] in Ho.
    repeat (destruct Ho as [Ho | Ho]; [discriminate Ho | ]). contradiction.
Qed.

Lemma north_polar_in_catalog : In north_polar PROJECTION_DATA.
Proof. do 4 right. left. reflexivity. Qed.

(** ** Building a [ProjectionBody] *)

(** [create] reads the display name and the method name of the list and
    nothing else: it raises [IndexError] exactly on a list of fewer than
    three elements, and otherwise builds the [ProjectionBody] without
    looking at the offset or at the parameters. *)
Theorem create_needs_three_elements :
  forall (bc : BodyCrs) (p : list value),
    ((List.length p < 3)%nat <-> create bc p = Raise IndexError)
    /\ ((3 <= List.length p)%nat <-> create bc p = Ok (projection_body bc p)).
Proof.
  intros bc p.
  destruct p as [ | p0 [ | p1 [ | p2 slots]]].
  - unfold create, ProjectionBody_init; cbn [index nth_error bind List.length].
    destruct (CrsType_eqb (crs_type bc) OCENTRIC
              && is_sphere (shape (body (datum bc))));
      [ | destruct (CrsType_eqb (crs_type bc) OCENTRIC)];
      (split; split; intros H; first [reflexivity | lia | discriminate H]).
  - unfold create, ProjectionBody_init; cbn [index nth_error bind List.length].
    destruct (CrsType_eqb (crs_type bc) OCENTRIC
              && is_sphere (shape (body (datum bc))));
      [ | destruct (CrsType_eqb (crs_type bc) OCENTRIC)];
      (split; split; intros H; first [reflexivity | lia | discriminate H]).
  - unfold create, ProjectionBody_init; cbn [index nth_error bind List.length].
    destruct (CrsType_eqb (crs_type bc) OCENTRIC
              && is_sphere (shape (body (datum bc))));
      [ | destruct (CrsType_eqb (crs_type bc) OCENTRIC)];
      (split; split; intros H; first [reflexivity | lia | discriminate H]).
  - rewrite create_record. cbn [List.length].
    split; split; intros H; first [reflexivity | lia | discriminate H].
Qed.

(** ** The exceptions of [Conversion.wkt] *)

Lemma substitute_TEMPLATE_PARAMETER_values (n v u a c : value) :
  substitute TEMPLATE_PARAMETER
    [ ("parameter_name", n); ("parameter_value", v); ("unit", u);
      ("authority", a); ("authority_code", c) ]
  = Ok (parameter_clause (str n) (str v) (str u) (str a) (str c)).
Proof. vm_compute. reflexivity. Qed.

Lemma substitute_TEMPLATE_CONVERSION_values (n m a c : value) (params : string) :
  substitute TEMPLATE_CONVERSION
    [ ("conversion_name", n); ("method_name", m); ("authority", a);
      ("authority_code", c); ("params", VStr params) ]
  = Ok (conversion_clause (str n) (str m) (str a) (str c) params).
Proof. vm_compute. reflexivity. Qed.

Lemma list_ind_pairs {A : Type} (P : list A -> Prop) :
  P [] -> (forall a, P [a]) ->
  (forall a b xs, P xs -> P (a :: b :: xs)) ->
  forall xs, P xs.
Proof.
  intros H0 H1 H2.
  assert (H : forall xs, P xs /\ forall a, P (a :: xs)).
  { induction xs as [ | x xs [IH IH']].
    - split; [exact H0 | exact H1].
    - split; [apply IH' | intros a; apply H2; exact IH]. }
  intros xs. apply H.
Qed.

Lemma reshape2_parity (xs : list value) :
  if Nat.odd (List.length xs)
  then reshape2 xs = Raise ValueError
  else exists rows, reshape2 xs = Ok rows
                    /\ List.length xs = (2 * List.length rows)%nat.
Proof.
  induction xs as [ | a | a b xs IH] using list_ind_pairs.
  - exists []. split; reflexivity.
  - reflexivity.
  - cbn [List.length reshape2].
    change (Nat.odd (S (S (List.length xs)))) with (Nat.odd (List.length xs)).
    destruct (Nat.odd (List.length xs)).
    + rewrite IH. reflexivity.
    + destruct IH as [rows [Hr Hl]]. rewrite Hr. cbn [bind].
      exists ((a, b) :: rows). split; [reflexivity | ].
      cbn [List.length]. lia.
Qed.

Lemma np_array_length (xs : list value) :
  List.length (np_array xs) = List.length xs.
Proof.
  unfold np_array. destruct (existsb is_str xs); [ | reflexivity ].
  apply length_map.
Qed.

Lemma index_Raise {A : Type} (xs : list A) (i : nat) (e : exn) :
  index xs i = Raise e -> e = IndexError.
Proof.
  unfold index. destruct (nth_error xs i); intros H; inv H. reflexivity.
Qed.

Lemma dict_get_Raise (d : list (string * list value)) (k : string) (e : exn) :
  dict_get d k = Raise e -> e = KeyError.
Proof.
  induction d as [ | [k' v] d IH]; cbn [dict_get]; intros H.
  - inv H. reflexivity.
  - destruct (k =? k'); [discriminate H | apply IH; exact H].
Qed.

Lemma mapping_get_Raise (k : value) (e : exn) :
  mapping_get k = Raise e -> e = KeyError.
Proof.
  destruct k as [z | s | ]; cbn [mapping_get]; intros H;
    first [ inv H; reflexivity | eapply dict_get_Raise; exact H ].
Qed.

Lemma parameter_wkt_Raise (p : value * value) (e : exn) :
  parameter_wkt p = Raise e -> e = KeyError \/ e = IndexError.
Proof.
  unfold parameter_wkt.
  destruct (mapping_get (fst p)) as [m | e1] eqn:Hm; cbn [bind].
  - destruct (index m 2) as [u | e2] eqn:Hu; cbn [bind].
    + destruct (index m 0) as [a | e3] eqn:Ha; cbn [bind].
      * destruct (index m 1) as [c | e4] eqn:Hc; cbn [bind].
        -- rewrite substitute_TEMPLATE_PARAMETER_values. discriminate.
        -- intros H; inv H. right. eapply index_Raise; exact Hc.
      * intros H; inv H. right. eapply index_Raise; exact Ha.
    + intros H; inv H. right. eapply index_Raise; exact Hu.
  - intros H; inv H. left. eapply mapping_get_Raise; exact Hm.
Qed.

Lemma mapM_Raise_inv {A B : Type} (f : A -> result B) (xs : list A) (e : exn) :
  mapM f xs = Raise e -> exists x, In x xs /\ f x = Raise e.
Proof.
  induction xs as [ | x xs IH]; cbn [mapM]; intros H; [discriminate H | ].
  destruct (f x) as [y | e1] eqn:Hx; cbn [bind] in H.
  - destruct (mapM f xs) as [ys | e2]; cbn [bind] in H; [discriminate H | ].
    destruct (IH H) as [x' [Hin Hx']]. exists x'. split; [right | ]; assumption.
  - inv H. exists x. split; [left; reflexivity | exact Hx].
Qed.

(** [Conversion.wkt] raises [ValueError] exactly when the number of
    entries that are not [None] after the third one is odd (they cannot
    be put in rows of a name and a value); the only other exceptions it
    can raise are [KeyError] and [IndexError]. *)
Theorem Conversion_wkt_exceptions :
  forall (cv : Conversion),
    (Nat.odd (List.length
                (filter is_not_None (skipn 3 (conversion_projection cv))))
     = true
     <-> Conversion_wkt cv = Raise ValueError)
    /\ (forall e, Conversion_wkt cv = Raise e ->
                  e = ValueError \/ e = KeyError \/ e = IndexError).
Proof.
  intros cv. unfold Conversion_wkt.
  pose proof (reshape2_parity
                (np_array (filter is_not_None
                             (skipn 3 (conversion_projection cv))))) as Hp.
  rewrite np_array_length in Hp.
  destruct (Nat.odd (List.length
                       (filter is_not_None
                          (skipn 3 (conversion_projection cv))))).
  - rewrite Hp. cbn [bind]. split; [split; reflexivity | ].
    intros e H. inv H. left. reflexivity.
  - destruct Hp as [rows [Hr _]]. rewrite Hr. cbn [bind].
    assert (Hothers :
      forall e,
        (params <- mapM parameter_wkt rows ;;
         conversion_name <- index (conversion_projection cv) 1 ;;
         method_name <- index (conversion_projection cv) 2 ;;
         m <- mapping_get method_name ;;
         authority <- index m 0 ;;
         m' <- mapping_get method_name ;;
         authority_code <- index m' 1 ;;
         substitute TEMPLATE_CONVERSION
           [ ("conversion_name", conversion_name);
             ("method_name", method_name);
             ("authority", authority);
             ("authority_code", authority_code);
             ("params", VStr (join params_sep params)) ]) = Raise e ->
        e = KeyError \/ e = IndexError).
    { intros e.
      destruct (mapM parameter_wkt rows) as [params | e0] eqn:Hm; cbn [bind].
      - destruct (index (conversion_projection cv) 1) as [n | e1] eqn:H1;
          cbn [bind];
          [ | intros H; inv H; right; eapply index_Raise; exact H1 ].
        destruct (index (conversion_projection cv) 2) as [m | e2] eqn:H2;
          cbn [bind];
          [ | intros H; inv H; right; eapply index_Raise; exact H2 ].
        destruct (mapping_get m) as [l | e3] eqn:H3; cbn [bind];
          [ | intros H; inv H; left; eapply mapping_get_Raise; exact H3 ].
        destruct (index l 0) as [a | e4] eqn:H4; cbn [bind];
          [ | intros H; inv H; right; eapply index_Raise; exact H4 ].
        destruct (index l 1) as [c | e5] eqn:H5; cbn [bind];
          [ | intros H; inv H; right; eapply index_Raise; exact H5 ].
        rewrite substitute_TEMPLATE_CONVERSION_values. discriminate.
      - intros H; inv H.
        destruct (mapM_Raise_inv _ _ _ Hm) as [p [_ Hp]].
        apply parameter_wkt_Raise in Hp. exact Hp. }
    split.
    + split; intros H; [discriminate H | ].
      destruct (Hothers _ H) as [He | He]; discriminate He.
    + intros e H. right. apply Hothers. exact H.
Qed.

(** [Conversion.wkt] reads the display name, the method name and the
    entries after them that are not [None], in their order: the offset,
    the attributes of the object and the places of the [None] entries
    play no part. *)
Theorem Conversion_wkt_skips_None :
  forall (cv cv' : Conversion) (p0 p0' p1 p2 : value) (slots slots' : list value),
    conversion_projection cv = p0 :: p1 :: p2 :: slots ->
    conversion_projection cv' = p0' :: p1 :: p2 :: slots' ->
    filter is_not_None slots = filter is_not_None slots' ->
    Conversion_wkt cv = Conversion_wkt cv'.
Proof.
  intros cv cv' p0 p0' p1 p2 slots slots' H H' Hs.
  unfold Conversion_wkt. rewrite H, H'. cbn [skipn index nth_error].
  rewrite Hs. reflexivity.
Qed.







(** ** Rendering the projections of a body *)

Lemma create_Ok (bc : BodyCrs) (p : list value) (pb : ProjectionBody) :
  create bc p = Ok pb ->
  exists p0 p1 p2 slots,
    p = p0 :: p1 :: p2 :: slots /\ pb = projection_body bc p.
Proof.
  destruct p as [ | p0 [ | p1 [ | p2 slots]]].
  - unfold create, ProjectionBody_init; cbn [index nth_error bind].
    destruct (CrsType_eqb (crs_type bc) OCENTRIC
              && is_sphere (shape (body (datum bc))));
      [ | destruct (CrsType_eqb (crs_type bc) OCENTRIC)];
      intros H; discriminate H.
  - unfold create, ProjectionBody_init; cbn [index nth_error bind].
    destruct (CrsType_eqb (crs_type bc) OCENTRIC
              && is_sphere (shape (body (datum bc))));
      [ | destruct (CrsType_eqb (crs_type bc) OCENTRIC)];
      intros H; discriminate H.
  - unfold create, ProjectionBody_init; cbn [index nth_error bind].
    destruct (CrsType_eqb (crs_type bc) OCENTRIC
              && is_sphere (shape (body (datum bc))));
      [ | destruct (CrsType_eqb (crs_type bc) OCENTRIC)];
      intros H; discriminate H.
  - rewrite create_record. intros H. inv H.
    exists p0, p1, p2, slots. split; reflexivity.
Qed.

Lemma Conversion_wkt_is_ok (cv : Conversion) :
  is_ok (Conversion_wkt cv) = true -> exists text, Conversion_wkt cv = Ok text.
Proof. apply is_ok_true. Qed.

(** The catalog and the mapping agree: for every [BodyCrs] whose datum
    gives its text, each [ProjectionBody] of the catalog is rendered, with
    the code of the body plus the offset of its entry, whether or not the
    body has a direction. *)
Theorem catalog_projections_render :
  forall (VERSION : string) (int_of_str : string -> result Z)
         (bc : BodyCrs) (datum_text : string) (pb : ProjectionBody),
    datum_wkt (datum bc) = Ok datum_text ->
    In pb (projection_bodies bc) ->
    exists offset conversion_text,
      offset_of (projection pb) = Some offset
      /\ In offset catalog_offsets
      /\ Conversion_wkt (conversion pb) = Ok conversion_text
      /\ ProjectionBody_wkt VERSION int_of_str pb
         = Ok (projected_text
                 (base_keyword (shape (body (datum bc))) (crs_type bc))
                 (projection_label (shape (body (datum bc))) (crs_type bc)
                    (body_name (body (datum bc))) VERSION
                    (nth 1 (projection pb) VNone))
                 (name bc) VERSION
                 (reference_label (shape (body (datum bc))) (crs_type bc))
                 datum_text (str_of_int (iau_code bc)) conversion_text
                 (direction_name pb)
                 (str (value_of_option (direction bc)))
                 (str_of_int (iau_code bc + offset))).
Proof.
  intros VERSION int_of_str bc datum_text pb Hd Hin.
  unfold projection_bodies in Hin. apply in_map_iff in Hin.
  destruct Hin as [p [Hpb Hp]]. subst pb.
  pose proof PROJECTION_DATA_entries as Hall. rewrite Forall_forall in Hall.
  destruct (Hall p Hp) as [o [dn [m [sl [Hpe [Ho Hok]]]]]]. subst p.
  apply Conversion_wkt_is_ok in Hok. destruct Hok as [conversion_text Hc].
  exists o, conversion_text.
  split; [reflexivity | split; [exact Ho | split; [exact Hc | ]]].
  exact (ProjectionBody_wkt_record VERSION int_of_str bc o (VStr dn) (VStr m) sl
           (projection_body bc (VInt o :: VStr dn :: VStr m :: sl))
           datum_text conversion_text
           (create_record bc (VInt o) (VStr dn) (VStr m) sl) Hd Hc).
Qed.

(** The first axis of a projection of a constructed body is labelled
    Westing (W) in one case only: the body is Ographic, its identifier is
    below 90000, its name is none of SUN, EARTH and MOON (its form in
    capitals, as [str.upper] makes it, is none of the three), and its
    rotation is Direct.  In particular every projection of an Ocentric body is
    labelled Easting (E). *)
Theorem westing_label_iff :
  forall (d : Datum) (naif_code : Z) (rotation : string) (t : CrsType)
         (c : BodyCrs) (p : list value) (pb : ProjectionBody),
    BodyCrs_init d naif_code rotation t = Ok c ->
    create c p = Ok pb ->
    (direction_name pb = "Westing (W)"
     <-> t = OGRAPHIC
         /\ (naif_code < 90000)%Z
         /\ historical_name (datum_name d) = false
         /\ rotation = "Direct")
    /\ (direction_name pb = "Westing (W)" \/ direction_name pb = "Easting (E)")
    /\ (t = OCENTRIC -> direction_name pb = "Easting (E)").
Proof.
  intros d naif_code rotation t c p pb Hc Hpb.
  destruct (create_Ok _ _ _ Hpb) as [p0 [p1 [p2 [slots [_ Hpb']]]]].
  destruct (BodyCrs_init_code _ _ _ _ _ Hc) as [_ [_ [_ [_ [_ [_ Hdir]]]]]].
  assert (Hbc : body_crs pb = c) by (subst pb; reflexivity).
  assert (Hw : direction_name pb = "Westing (W)"
               <-> _create_direction (datum_name d) rotation t naif_code
                   = Some "west").
  { rewrite direction_name_west, Hbc, Hdir. reflexivity. }
  split; [ | split ].
  - rewrite Hw. apply direction_west_iff.
  - unfold direction_name. destruct (direction (body_crs pb)) as [dir | ];
      [destruct (dir =? "west") | ]; tauto.
  - intros Ht. subst t. apply direction_name_east.
    rewrite Hbc, Hdir, create_direction_ocentric. discriminate.
Qed.

(** A failure of the datum comes out unchanged: when [datum.wkt()] raises,
    [BodyCrs.wkt] on a body with a direction and [ProjectionBody.wkt] on
    any projection built by [create] raise the same exception. *)
Theorem datum_failure_propagates :
  forall (VERSION SOURCE_IAU : string) (int_of_str : string -> result Z)
         (bc : BodyCrs) (e : exn),
    datum_wkt (datum bc) = Raise e ->
    (direction bc <> None -> BodyCrs_wkt VERSION SOURCE_IAU bc = Raise e)
    /\ (forall p pb, create bc p = Ok pb ->
                     ProjectionBody_wkt VERSION int_of_str pb = Raise e).
Proof.
  intros VERSION SOURCE_IAU int_of_str bc e Hd. split.
  - intros Hdir. unfold BodyCrs_wkt.
    destruct (direction bc) as [dir | ]; [ | contradiction Hdir; reflexivity ].
    rewrite Hd. reflexivity.
  - intros p pb Hpb.
    destruct (create_Ok _ _ _ Hpb) as [p0 [p1 [p2 [slots [Hp Hpb']]]]].
    subst p pb.
    unfold ProjectionBody_wkt, _create_projection.
    cbn [projection_body body_crs projection index nth_error].
    destruct (CrsType_eqb (crs_type bc) OCENTRIC
              && is_sphere (shape (body (datum bc))));
      cbn [bind]; rewrite Hd; reflexivity.
Qed.

(** [create] does not look at the offset: a list whose first element is
    [None] is accepted, and the failure comes when the code is computed
    or the text rendered, as the [TypeError] of [int(None)], before the
    conversion is rendered. *)
Theorem offset_is_read_at_render_time :
  forall (VERSION : string) (int_of_str : string -> result Z)
         (bc : BodyCrs) (p1 p2 : value) (slots : list value),
    exists pb,
      create bc (VNone :: p1 :: p2 :: slots) = Ok pb
      /\ ProjectionBody_iau_code int_of_str pb = Raise TypeError
      /\ forall datum_text,
           datum_wkt (datum bc) = Ok datum_text ->
           ProjectionBody_wkt VERSION int_of_str pb = Raise TypeError.
Proof.
  intros VERSION int_of_str bc p1 p2 slots.
  eexists. split; [apply create_record | ].
  split; [reflexivity | ].
  intros datum_text Hd.
  unfold ProjectionBody_wkt, _create_projection.
  cbn [body_crs projection index nth_error].
  destruct (CrsType_eqb (crs_type bc) OCENTRIC
            && is_sphere (shape (body (datum bc))));
    cbn [bind]; rewrite Hd; reflexivity.
Qed.

(** ** The exceptions of [BodyCrs.wkt] *)

(** On a constructed [BodyCrs], [wkt] returns a text exactly when the
    direction is resolved and the datum gives its text; it raises the
    assertion error when the direction is unresolved, and otherwise only
    what the datum raises: filling the template never fails, whatever the
    name, the datum text and the warning contain. *)
Theorem BodyCrs_wkt_exceptions :
  forall (VERSION SOURCE_IAU : string) (d : Datum) (naif_code : Z)
         (rotation : string) (t : CrsType) (c : BodyCrs),
    BodyCrs_init d naif_code rotation t = Ok c ->
    ((exists text, BodyCrs_wkt VERSION SOURCE_IAU c = Ok text)
     <-> direction c <> None /\ exists datum_text, datum_wkt d = Ok datum_text)
    /\ (forall e, BodyCrs_wkt VERSION SOURCE_IAU c = Raise e ->
                  (direction c = None /\ e = AssertionError)
                  \/ (direction c <> None /\ datum_wkt d = Raise e)).
Proof.
  intros VERSION SOURCE_IAU d naif_code rotation t c Hc.
  destruct (direction c) as [dir | ] eqn:Hdir.
  - rewrite (BodyCrs_wkt_constructed _ _ _ _ _ _ _ _ Hc Hdir).
    destruct (datum_wkt d) as [datum_text | e0]; cbn [bind].
    + split.
      * split; [intros _ | intros _; eexists; reflexivity].
        split; [discriminate | eexists; reflexivity].
      * intros e H. discriminate H.
    + split.
      * split; [intros [text H]; discriminate H | ].
        intros [_ [datum_text H]]. discriminate H.
      * intros e H. inv H. right. split; [discriminate | reflexivity].
  - unfold BodyCrs_wkt. rewrite Hdir. split.
    + split; [intros [text H]; discriminate H | ].
      intros [H _]. contradiction H. reflexivity.
    + intros e H. inv H. left. split; reflexivity.
Qed.

(** ** The two factories *)

Section FactoryProperties.

Variable number : Type.
Variable Anchor : Type.
Variable Anchor_init : string -> result Anchor.
Variable IBody_create :
  ReferenceShape -> string -> number -> number -> number -> number
  -> result IBody.
Variable Datum_create : string -> IBody -> Anchor -> result Datum.

Let init := Planetocentric_init number Anchor Anchor_init IBody_create
              Datum_create.

Lemma Planetocentric_init_Ok
    (k : FrameClass) (r : Row number) (s : ReferenceShape)
    (p : Planetocentric number) :
  init k r s = Ok p ->
  exists b d,
    _create_body number IBody_create r s = Ok b
    /\ _create_datum number Anchor Anchor_init Datum_create r b = Ok d
    /\ BodyCrs_init d (Naif_id number r) (rotation number r) (frame_crs_type k)
       = Ok (crs number p)
    /\ frame_class number p = k /\ row number p = r /\ ref_shape number p = s.
Proof.
  unfold init, Planetocentric_init, _crs. intros H.
  apply bind_Ok in H. destruct H as [c [Hc H]]. inv H.
  apply bind_Ok in Hc. destruct Hc as [b [Hb Hc]].
  apply bind_Ok in Hc. destruct Hc as [d [Hd Hc]].
  exists b, d. cbn [crs frame_class row ref_shape].
  split; [exact Hb | split; [exact Hd | ]].
  split; [destruct k; exact Hc | repeat split].
Qed.

(** A [Planetocentric] that was built holds an Ocentric CRS whose
    direction is east, whatever the row says of the rotation, and its
    code is the identifier of the row times 100 plus 0, 2 or 4; a
    [Planetographic] holds an Ographic CRS whose code ends with 1 or 3.
    In both classes the CRS is the one of the datum that was built for
    the body of the row. *)
Theorem factory_frame_and_code :
  forall (k : FrameClass) (r : Row number) (s : ReferenceShape)
         (p : Planetocentric number),
    init k r s = Ok p ->
    crs_type (crs number p) = frame_crs_type k
    /\ (exists offset,
          iau_code (crs number p) = (Naif_id number r * 100 + offset)%Z
          /\ offset_table (shape (body (datum (crs number p))))
               (frame_crs_type k) = Some offset)
    /\ (k = PLANETOCENTRIC ->
        direction (crs number p) = Some "east"
        /\ (iau_code (crs number p) - Naif_id number r * 100 = 0
            \/ iau_code (crs number p) - Naif_id number r * 100 = 2
            \/ iau_code (crs number p) - Naif_id number r * 100 = 4)%Z)
    /\ (k = PLANETOGRAPHIC ->
        (iau_code (crs number p) - Naif_id number r * 100 = 1
         \/ iau_code (crs number p) - Naif_id number r * 100 = 3)%Z).
Proof.
  intros k r s p H.
  destruct (Planetocentric_init_Ok k r s p H) as [b [d [_ [_ [Hc _]]]]].
  destruct (BodyCrs_init_code _ _ _ _ _ Hc)
    as [offset [Ht [Hcode [_ [Hd [Hty Hdir]]]]]].
  split; [exact Hty | split; [ | split ]].
  - exists offset. rewrite Hd. split; [exact Hcode | exact Ht].
  - intros Hk. subst k. cbn [frame_crs_type] in *.
    split; [rewrite Hdir; apply create_direction_ocentric | ].
    rewrite Hcode.
    destruct (shape (body d)); cbn [offset_table] in Ht; inv Ht; lia.
  - intros Hk. subst k. cbn [frame_crs_type] in *. rewrite Hcode.
    destruct (shape (body d)); cbn [offset_table] in Ht; inv Ht; lia.
Qed.

(** The two classes on the same row and the same reference shape build
    the same body and the same datum.  When both succeed, the two CRS are
    on the same datum, the body is not a sphere, and the Ographic code is
    the Ocentric code minus one; when the [Planetographic] is built the
    [Planetocentric] is built too; and when the [Planetocentric] is built
    on a sphere, the [Planetographic] raises [ValueError]. *)
Theorem planetographic_and_planetocentric :
  forall (r : Row number) (s : ReferenceShape),
    (forall pc pg,
        init PLANETOCENTRIC r s = Ok pc ->
        init PLANETOGRAPHIC r s = Ok pg ->
        datum (crs number pg) = datum (crs number pc)
        /\ name (crs number pg) = name (crs number pc)
        /\ shape (body (datum (crs number pc))) <> SPHERE
        /\ iau_code (crs number pg) = (iau_code (crs number pc) - 1)%Z)
    /\ (forall pg, init PLANETOGRAPHIC r s = Ok pg ->
                   exists pc, init PLANETOCENTRIC r s = Ok pc)
    /\ (forall pc, init PLANETOCENTRIC r s = Ok pc ->
                   shape (body (datum (crs number pc))) = SPHERE ->
                   init PLANETOGRAPHIC r s = Raise ValueError).
Proof.
  intros r s. split; [ | split ].
  - intros pc pg Hpc Hpg.
    destruct (Planetocentric_init_Ok _ _ _ _ Hpc) as [b [d [Hb [Hd [Hc _]]]]].
    destruct (Planetocentric_init_Ok _ _ _ _ Hpg)
      as [b' [d' [Hb' [Hd' [Hc' _]]]]].
    rewrite Hb in Hb'. inv Hb'. rewrite Hd in Hd'. inv Hd'.
    cbn [frame_crs_type] in Hc, Hc'.
    unfold BodyCrs_init, _get_template_and_number in Hc, Hc'.
    destruct (shape (body d')) eqn:Hs; cbn [bind] in Hc, Hc';
      try discriminate Hc'; inv Hc; inv Hc';
      cbn [datum name iau_code snd body shape];
      rewrite Hs; unfold get_code, BodyCrsCode_code;
      cbn [BodyCrsCode_value snd];
      (split; [reflexivity | split; [reflexivity | split; [discriminate | lia]]]).
  - intros pg Hpg.
    destruct (Planetocentric_init_Ok _ _ _ _ Hpg) as [b [d [Hb [Hd [Hc _]]]]].
    unfold init, Planetocentric_init, _crs. rewrite Hb. cbn [bind].
    rewrite Hd. cbn [bind _create_crs].
    cbn [frame_crs_type] in Hc.
    unfold BodyCrs_init, _get_template_and_number in Hc |- *.
    destruct (shape (body d)); cbn [bind] in Hc |- *;
      try discriminate Hc; eexists; reflexivity.
  - intros pc Hpc Hs.
    destruct (Planetocentric_init_Ok _ _ _ _ Hpc) as [b [d [Hb [Hd [Hc _]]]]].
    destruct (BodyCrs_init_code _ _ _ _ _ Hc) as [_ [_ [_ [_ [Hdd _]]]]].
    rewrite Hdd in Hs.
    unfold init, Planetocentric_init, _crs. rewrite Hb. cbn [bind].
    rewrite Hd. cbn [bind _create_crs].
    unfold BodyCrs_init, _get_template_and_number. rewrite Hs. reflexivity.
Qed.

End FactoryProperties.


End Crs.

(** * The theorems on examples *)

Lemma create_direction_decision_order_witness :
  _create_direction example_upper "Earth" "Retrograde" OGRAPHIC 399
  = Some "east"
  /\ _create_direction example_upper "Ceres" "Direct" OGRAPHIC 2000001
     = Some "east"
  /\ _create_direction example_upper long_s_un "Direct" OGRAPHIC 10
     = Some "east"
  /\ _create_direction example_upper "Mars" "Direct" OGRAPHIC 499
     = resolve_direction example_upper "Mars" "Direct" OGRAPHIC 499
  /\ historical_or_small_body example_upper "moon" 301 = true
  /\ historical_or_small_body example_upper "earth" 399
     = (399 >=? 90000)%Z
       || existsb (equal_ignoring_case "earth") ["SUN"; "EARTH"; "MOON"].
Proof.
  split; [ | split; [ | split; [ | split; [ | split ] ] ] ].
  - apply (proj1 (proj2 (create_direction_decision_order example_upper
                           "Earth" "Direct" OCENTRIC 399))). reflexivity.
  - apply (proj1 (proj2 (create_direction_decision_order example_upper
                           "Ceres" "Direct" OCENTRIC 2000001))). reflexivity.
  - apply (proj1 (proj2 (create_direction_decision_order example_upper
                           long_s_un "Direct" OCENTRIC 10))). reflexivity.
  - apply (proj1 (create_direction_decision_order example_upper
                    "Mars" "Direct" OGRAPHIC 499)).
  - apply (proj1 (proj2 (proj2 (create_direction_decision_order example_upper
                                  "moon" "Direct" OGRAPHIC 301)))).
    reflexivity.
  - apply (proj2 (proj2 (proj2 (create_direction_decision_order example_upper
                                  "earth" "Direct" OGRAPHIC 399)))).
    reflexivity.
Defined.

Lemma crs_code_assignment_witness :
  exists c, BodyCrs_init example_upper (example_datum "Mars" ELLIPSE) 499 "Direct" OCENTRIC
            = Ok c
            /\ iau_code c = 49902%Z.
Proof.
  exact (proj1 (proj2 (crs_code_assignment example_upper
                         (example_datum "Mars" ELLIPSE) OCENTRIC 499 2
                         "Direct" eq_refl))).
Defined.

Lemma BodyCrs_wkt_unresolved_fails_witness :
  BodyCrs_init example_upper (example_datum "Io" ELLIPSE) 501 "Unknown" OGRAPHIC
  = Ok io_ographic
  /\ BodyCrs_wkt "2015" "Source" io_ographic = Raise AssertionError.
Proof.
  split; [reflexivity | ].
  exact (proj1 (BodyCrs_wkt_unresolved_fails "2015" "Source" io_ographic
                  eq_refl)).
Defined.

Lemma BodyCrs_template_family_witness :
  exists c,
    BodyCrs_init example_upper (example_datum "Mars" ELLIPSE) 499 "Direct" OGRAPHIC = Ok c
    /\ template c = TEMPLATE_OGRAPHIC
    /\ BodyCrs_wkt "2015" "Source" c
       = Ok (crs_text "GEOGCRS" " / Ographic" "ellipsoidal"
               "geodetic latitude (Lat)" "geodetic longitude (Lon)"
               "Mars" "2015" "DATUM[...]" "west" "49901" "Source").
Proof.
  destruct (BodyCrs_template_family example_upper "2015" "Source"
              (example_datum "Mars" ELLIPSE) 499 "Direct" OGRAPHIC
              TEMPLATE_OGRAPHIC eq_refl) as [c [Hc [Ht Hw]]].
  exists c. split; [exact Hc | split; [exact Ht | ]].
  inversion Hc; subst c.
  exact (Hw "DATUM[...]" "west" eq_refl eq_refl).
Defined.

Lemma BodyCrs_init_invalid_pair_witness :
  BodyCrs_init example_upper (example_datum "Ceres" SPHERE) 2000001 "Direct" OGRAPHIC
  = Raise ValueError
  /\ BodyCrs_init example_upper (example_datum "Comet" (OTHER_SHAPE "Point")) 1000012
       "Direct" OCENTRIC
     = Raise ValueError.
Proof.
  split.
  - apply (proj1 (BodyCrs_init_invalid_pair example_upper
                    (example_datum "Ceres" SPHERE) 2000001 "Direct" OGRAPHIC)).
    left. split; reflexivity.
  - apply (proj1 (BodyCrs_init_invalid_pair example_upper
                    (example_datum "Comet" (OTHER_SHAPE "Point")) 1000012
                    "Direct" OCENTRIC)).
    right. exists "Point". reflexivity.
Defined.

Lemma ocentric_direction_is_east_witness :
  BodyCrs_init example_upper (example_datum "Mars" ELLIPSE) 499 "Unknown" OCENTRIC
  = Ok mars_ocentric
  /\ direction mars_ocentric = Some "east"
  /\ _create_direction example_upper "Io" "Unknown" OGRAPHIC 501 = None.
Proof.
  split; [reflexivity | split].
  - apply (proj1 (proj2 (ocentric_direction_is_east example_upper "2015" "Source"
                           (example_datum "Mars" ELLIPSE) 499 "Unknown"))).
    reflexivity.
  - apply (proj2 (proj2 (ocentric_direction_is_east example_upper "2015" "Source"
                           (example_datum "Mars" ELLIPSE) 499 "Unknown"))).
    repeat split; (reflexivity || discriminate).
Defined.


Lemma projected_crs_of_record_witness :
  exists pb,
    create mars_ocentric north_polar = Ok pb
    /\ ProjectionBody_iau_code no_int pb = Ok 49932%Z
    /\ direction_name pb = "Easting (E)"
    /\ exists conversion_text,
         Conversion_wkt (conversion pb) = Ok conversion_text
         /\ ProjectionBody_wkt "2015" no_int pb
            = Ok (projected_text "BASEGEODCRS"
                    "Mars (2015) / Ocentric / North Polar" "Mars" "2015"
                    "/ Ocentric" "DATUM[...]" "49902" conversion_text
                    "Easting (E)" "east" "49932").
Proof.
  destruct (projected_crs_of_record "2015" no_int mars_ocentric 30
              (VStr "North Polar") (VStr "Polar Stereographic (variant A)")
              (skipn 3 north_polar))
    as [pb [Hpb [Hbc [Hpr [Htpl [_ [_ [Hcode [_ [Heast Hwkt]]]]]]]]]].
  exists pb. split; [exact Hpb | split; [exact Hcode | ]].
  assert (Hlabel : direction_name pb = "Easting (E)").
  { apply Heast. discriminate. }
  split; [exact Hlabel | ].
  inversion Hpb; subst pb.
  eexists. split; [vm_compute; reflexivity | ].
  rewrite (Hwkt "DATUM[...]" _ eq_refl eq_refl).
  reflexivity.
Defined.

Lemma iter_projection_yields_catalog_witness :
  list_of_generator 18 (iter_projection mars_ocentric)
  = Some (Ok (projection_bodies mars_ocentric))
  /\ list_of_generator 40 (iter_projection mars_ocentric)
     = list_of_generator 18 (iter_projection mars_ocentric).
Proof.
  assert (H18 : (17 < 18)%nat) by lia.
  assert (H40 : (17 < 40)%nat) by lia.
  split.
  - exact (proj1 (iter_projection_yields_catalog mars_ocentric 18 H18)).
  - apply (iter_projection_yields_catalog mars_ocentric 18 H18). exact H40.
Defined.

Lemma create_direction_west_witness :
  _create_direction example_upper "Mars" "Direct" OGRAPHIC 499 = Some "west".
Proof.
  apply (proj1 (create_direction_west example_upper "Mars" "Direct" OGRAPHIC 499)).
  repeat split; reflexivity.
Defined.

Lemma create_direction_ignores_case_witness :
  _create_direction example_upper "moon" "Direct" OGRAPHIC 301
  = _create_direction example_upper "Moon" "Direct" OGRAPHIC 301.
Proof.
  apply (create_direction_ignores_case example_upper). reflexivity.
Defined.

Lemma iau_codes_do_not_collide_witness :
  (49900 <= 49902 + 30 <= 49994)%Z
  /\ ((49902 + 30 = 49902 + 30)%Z ->
      499%Z = 499%Z /\ OCENTRIC = OCENTRIC /\ ELLIPSE = ELLIPSE /\ 30%Z = 30%Z).
Proof.
  apply (iau_codes_do_not_collide example_upper
           (example_datum "Mars" ELLIPSE) (example_datum "Mars" ELLIPSE)
           499 499 "Direct" "Direct" OCENTRIC OCENTRIC
           mars_ocentric mars_ocentric 30 30);
    first [reflexivity | cbn [catalog_offsets In]; tauto].
Defined.

Lemma projected_codes_do_not_collide_witness :
  projection (projection_body mars_ocentric north_polar)
  = projection (projection_body mars_ocentric north_polar)
  /\ ProjectionBody_iau_code no_int (projection_body mars_ocentric north_polar)
     <> Ok 49902%Z.
Proof.
  assert (Hin : In (projection_body mars_ocentric north_polar)
                  (projection_bodies mars_ocentric))
    by (apply in_map; exact north_polar_in_catalog).
  destruct (projected_codes_do_not_collide example_upper no_int
              (example_datum "Mars" ELLIPSE) (example_datum "Mars" ELLIPSE)
              (example_datum "Mars" ELLIPSE)
              499 499 499 "Direct" "Direct" "Direct"
              OCENTRIC OCENTRIC OCENTRIC
              mars_ocentric mars_ocentric mars_ocentric
              (projection_body mars_ocentric north_polar)
              (projection_body mars_ocentric north_polar)
              eq_refl eq_refl eq_refl Hin Hin)
    as [Hsame Hother].
  split.
  - exact (proj2 (proj2 (proj2 (Hsame eq_refl)))).
  - exact Hother.
Defined.

Lemma create_needs_three_elements_witness :
  create mars_ocentric [VInt 10; VStr "Equirectangular"] = Raise IndexError
  /\ create mars_ocentric north_polar
     = Ok (projection_body mars_ocentric north_polar).
Proof.
  split.
  - apply (proj1 (create_needs_three_elements mars_ocentric
                    [VInt 10; VStr "Equirectangular"])).
    cbn [List.length]. lia.
  - apply (proj2 (create_needs_three_elements mars_ocentric north_polar)).
    cbn [List.length north_polar catalog_record]. lia.
Defined.

Lemma Conversion_wkt_exceptions_witness :
  Conversion_wkt (_create_conversion (VStr "Mercator")
                    (VStr "Mercator (Spherical)") "METHOD"
                    [ VInt 90; VStr "Mercator"; VStr "Mercator (Spherical)";
                      VStr "False easting"; VInt 0; VStr "False northing";
                      VNone ])
  = Raise ValueError.
Proof.
  apply (proj1 (Conversion_wkt_exceptions _)). reflexivity.
Defined.

Lemma Conversion_wkt_skips_None_witness :
  Conversion_wkt (_create_conversion VNone VNone "METHOD"
                    [ VInt 20; VStr "Sinusoidal, clon = 0"; VStr "Sinusoidal";
                      VNone; VStr "Longitude of natural origin"; VNone;
                      VInt 0 ])
  = Conversion_wkt (_create_conversion (VStr "Sinusoidal, clon = 0")
                      (VStr "Sinusoidal") "METHOD"
                      (catalog_record 99 "Sinusoidal, clon = 0" "Sinusoidal"
                         [("Longitude of natural origin", 0%Z)] 4)).
Proof.
  eapply Conversion_wkt_skips_None; reflexivity.
Defined.



Lemma catalog_projections_render_witness :
  exists offset conversion_text,
    offset_of (projection (projection_body io_ographic north_polar))
    = Some offset
    /\ In offset catalog_offsets
    /\ Conversion_wkt (conversion (projection_body io_ographic north_polar))
       = Ok conversion_text
    /\ ProjectionBody_wkt "2015" no_int
         (projection_body io_ographic north_polar)
       = Ok (projected_text "BASEGEOGCRS"
               "Io (2015) / Ographic / North Polar" "Io" "2015" "/ Ographic"
               "DATUM[...]" "50101" conversion_text "Easting (E)" "None"
               (str_of_int (50101 + offset))).
Proof.
  apply (catalog_projections_render "2015" no_int io_ographic "DATUM[...]"
           (projection_body io_ographic north_polar) eq_refl).
  apply in_map. exact north_polar_in_catalog.
Defined.

Lemma westing_label_iff_witness :
  exists c pb,
    BodyCrs_init example_upper (example_datum "Mars" ELLIPSE) 499 "Direct" OGRAPHIC = Ok c
    /\ create c north_polar = Ok pb
    /\ direction_name pb = "Westing (W)".
Proof.
  eexists. eexists.
  split; [reflexivity | split; [reflexivity | ]].
  apply (proj1 (westing_label_iff example_upper (example_datum "Mars" ELLIPSE) 499 "Direct"
                  OGRAPHIC _ north_polar _ eq_refl eq_refl)).
  repeat split; reflexivity.
Defined.

Lemma datum_failure_propagates_witness :
  ProjectionBody_wkt "2015" no_int
    (projection_body
       {| datum := {| datum_name := "Mars";
                      body := {| body_name := "Mars"; shape := ELLIPSE;
                                 warning := None |};
                      datum_wkt := Raise KeyError |};
          crs_type := OCENTRIC; direction := Some "east"; name := "Mars";
          iau_code := 49902; template := TEMPLATE_OCENTRIC |}
       north_polar)
  = Raise KeyError.
Proof.
  apply (proj2 (datum_failure_propagates "2015" "Source" no_int
                  {| datum := {| datum_name := "Mars";
                                 body := {| body_name := "Mars";
                                            shape := ELLIPSE;
                                            warning := None |};
                                 datum_wkt := Raise KeyError |};
                     crs_type := OCENTRIC; direction := Some "east";
                     name := "Mars"; iau_code := 49902;
                     template := TEMPLATE_OCENTRIC |}
                  KeyError eq_refl) north_polar).
  reflexivity.
Defined.

Lemma offset_is_read_at_render_time_witness :
  exists pb,
    create mars_ocentric [VNone; VStr "North Polar"; VStr "Mercator"] = Ok pb
    /\ ProjectionBody_wkt "2015" no_int pb = Raise TypeError.
Proof.
  destruct (offset_is_read_at_render_time "2015" no_int mars_ocentric
              (VStr "North Polar") (VStr "Mercator") [])
    as [pb [Hpb [_ Hw]]].
  exists pb. split; [exact Hpb | exact (Hw "DATUM[...]" eq_refl)].
Defined.

Lemma BodyCrs_wkt_exceptions_witness :
  exists text, BodyCrs_wkt "2015" "Source" mars_ocentric = Ok text.
Proof.
  apply (proj1 (BodyCrs_wkt_exceptions example_upper "2015" "Source"
                  (example_datum "Mars" ELLIPSE) 499 "Direct" OCENTRIC
                  mars_ocentric eq_refl)).
  split; [discriminate | eexists; reflexivity].
Defined.

Lemma factory_frame_and_code_witness :
  exists p,
    Planetocentric_init example_upper Z string example_Anchor_init example_IBody_create
      example_Datum_create PLANETOCENTRIC example_row ELLIPSE = Ok p
    /\ crs_type (crs Z p) = OCENTRIC
    /\ direction (crs Z p) = Some "east".
Proof.
  eexists. split; [reflexivity | ].
  split.
  - apply (proj1 (factory_frame_and_code example_upper Z string example_Anchor_init
                    example_IBody_create example_Datum_create
                    PLANETOCENTRIC example_row ELLIPSE _ eq_refl)).
  - apply (proj1 (proj2 (proj2 (factory_frame_and_code example_upper Z string
                                  example_Anchor_init example_IBody_create
                                  example_Datum_create
                                  PLANETOCENTRIC example_row ELLIPSE _
                                  eq_refl)))).
    reflexivity.
Defined.

Lemma planetographic_and_planetocentric_witness :
  exists pc pg,
    Planetocentric_init example_upper Z string example_Anchor_init example_IBody_create
      example_Datum_create PLANETOCENTRIC example_row ELLIPSE = Ok pc
    /\ Planetocentric_init example_upper Z string example_Anchor_init example_IBody_create
         example_Datum_create PLANETOGRAPHIC example_row ELLIPSE = Ok pg
    /\ iau_code (crs Z pg) = (iau_code (crs Z pc) - 1)%Z
    /\ Planetocentric_init example_upper Z string example_Anchor_init example_IBody_create
         example_Datum_create PLANETOGRAPHIC example_row SPHERE
       = Raise ValueError.
Proof.
  eexists. eexists.
  split; [reflexivity | split; [reflexivity | split]].
  - apply (proj1 (planetographic_and_planetocentric example_upper Z string
                    example_Anchor_init example_IBody_create
                    example_Datum_create example_row ELLIPSE)
             _ _ eq_refl eq_refl).
  - eapply (proj2 (proj2 (planetographic_and_planetocentric example_upper Z string
                            example_Anchor_init example_IBody_create
                            example_Datum_create example_row SPHERE)));
      reflexivity.
Defined.

